(** * University management system (src/index.ts)

    A shallow embedding of the class [UniversityManagementSystem] and of the
    enums and interfaces it works on, followed by the properties of its
    operations.

    Modelling choices.
    - The three private arrays are lists; [push] appends at the end,
      [find] is [List.find] (first match), [filter] is [List.filter].
    - Ids, capacities and counters are integers ([Z]).
    - A method runs in a small state-and-exception monad [M]: it receives
      the instance state and gives back the state it leaves behind together
      with either a returned value or the thrown [Error].  A [throw] does
      not roll anything back, exactly as in the source.
    - [new Date()] reads a clock; the time read is an argument [now].
    - The quotient computed by [calculateAverageGrade] is a JavaScript
      number: a finite value (an exact rational here), [NaN] or an
      infinity, so that division by zero is visible in the model.  The
      exact quotient is what the comparisons and bounds below are stated
      on.  The value the method hands back is that quotient rounded to an
      IEEE-754 double; [Double.calculateAverageGrade] is the method with
      the division of the Standard Library's specification of
      floating-point arithmetic ([SFdiv], binary64). *)

From Stdlib Require Import String ZArith QArith Qreduction List Bool Lia Sorted.
From Stdlib Require Import SpecFloat.
Import ListNotations.

Local Open Scope Z_scope.

(** ** Enums *)

Inductive StudentStatus : Set := Active | Academic_Leave | Graduated | Expelled.

Inductive CourseType : Set := Mandatory | Optional | Special.

Inductive Semester : Set := First | Second.

Inductive GradeEnum : Set := Excellent | Good | Satisfactory | Unsatisfactory.

Inductive Faculty : Set := Computer_Science | Economics | Law | Engineering.

(** The numeric value of a member of [GradeEnum]. *)
Definition gradeValue (g : GradeEnum) : Z :=
  match g with
  | Excellent => 5
  | Good => 4
  | Satisfactory => 3
  | Unsatisfactory => 2
  end.

(** [===] on the string enums. *)
Definition StudentStatus_eqb (a b : StudentStatus) : bool :=
  match a, b with
  | Active, Active | Academic_Leave, Academic_Leave
  | Graduated, Graduated | Expelled, Expelled => true
  | _, _ => false
  end.

Definition Semester_eqb (a b : Semester) : bool :=
  match a, b with
  | First, First | Second, Second => true
  | _, _ => false
  end.

Definition Faculty_eqb (a b : Faculty) : bool :=
  match a, b with
  | Computer_Science, Computer_Science | Economics, Economics
  | Law, Law | Engineering, Engineering => true
  | _, _ => false
  end.

(** ** Interfaces *)

Definition Date := Z.

Module Student.
Record t : Set := mk
  { id : Z;
    fullName : string;
    faculty : Faculty;
    year : Z;
    status : StudentStatus;
    enrollmentDate : Date;
    groupNumber : string }.

(** [student.status = v] on a stored object. *)
Definition set_status (v : StudentStatus) (s : t) : t :=
  mk (id s) (fullName s) (faculty s) (year s) v (enrollmentDate s)
     (groupNumber s).
End Student.

(** [Omit<Student, "id">]. *)
Module StudentWithoutId.
Record t : Set := mk
  { fullName : string;
    faculty : Faculty;
    year : Z;
    status : StudentStatus;
    enrollmentDate : Date;
    groupNumber : string }.
End StudentWithoutId.

Module Course.
Record t : Set := mk
  { id : Z;
    name : string;
    type : CourseType;
    credits : Z;
    semester : Semester;
    faculty : Faculty;
    maxStudents : Z }.
End Course.

Module Grade.
Record t : Set := mk
  { studentId : Z;
    courseId : Z;
    grade : option GradeEnum;
    date : Date;
    semester : Semester }.

(** [registration.grade = v; registration.date = d] on a stored object. *)
Definition set_grade_date (v : GradeEnum) (d : Date) (g : t) : t :=
  mk (studentId g) (courseId g) (Some v) d (semester g).
End Grade.

(** ** JavaScript numbers, as far as the average needs them *)

Inductive number : Set :=
| Finite (q : Q)
| NaN
| Infinity (negative : bool).

(** [a / b] on two integers.  A finite quotient is kept in lowest terms, so
    that equal numbers are equal terms. *)
Definition js_div (a b : Z) : number :=
  if b =? 0 then
    if a =? 0 then NaN else Infinity (a <? 0)
  else Finite (Qred (Qdiv (inject_Z a) (inject_Z b))).

(** [x >= k] for an integer constant [k]; every comparison with [NaN] is
    false. *)
Definition number_geb (x : number) (k : Z) : bool :=
  match x with
  | Finite q => Qle_bool (inject_Z k) q
  | NaN => false
  | Infinity negative => negb negative
  end.

(** ** Errors *)

Inductive Error : Set := mkError (message : string).

Definition InvalidStudentOrCourse : Error := mkError "Invalid student or course ID.".
Definition InvalidStudent : Error := mkError "Invalid student ID.".
Definition FacultyMismatch : Error := mkError "Faculty mismatch.".
Definition CourseFull : Error := mkError "Course is full.".
Definition NotRegistered : Error :=
  mkError "Student is not registered for this course.".
Definition IllegalTransition : Error :=
  mkError "Cannot change status of an expelled student.".

(** ** The instance state *)

Record UMS : Set := mkUMS
  { students : list Student.t;
    courses : list Course.t;
    grades : list Grade.t;
    nextStudentId : Z;
    nextCourseId : Z }.

(** [new UniversityManagementSystem()]. *)
Definition init : UMS := mkUMS [] [] [] 1 1.

Definition set_students (v : list Student.t) (s : UMS) : UMS :=
  mkUMS v (courses s) (grades s) (nextStudentId s) (nextCourseId s).

Definition set_grades (v : list Grade.t) (s : UMS) : UMS :=
  mkUMS (students s) (courses s) v (nextStudentId s) (nextCourseId s).

Definition set_nextStudentId (v : Z) (s : UMS) : UMS :=
  mkUMS (students s) (courses s) (grades s) v (nextCourseId s).

(** ** The monad of methods *)

Inductive outcome (A : Type) : Type :=
| Return (a : A)
| Throw (e : Error).

Arguments Return {A} a.
Arguments Throw {A} e.

Definition M (A : Type) : Type := UMS -> UMS * outcome A.

Definition ret {A} (a : A) : M A := fun s => (s, Return a).

Definition throw {A} (e : Error) : M A := fun s => (s, Throw e).

Definition bind {A B} (m : M A) (k : A -> M B) : M B :=
  fun s =>
    match m s with
    | (s', Return a) => k a s'
    | (s', Throw e) => (s', Throw e)
    end.

Definition get : M UMS := fun s => (s, Return s).

Definition modify (f : UMS -> UMS) : M unit := fun s => (f s, Return tt).

Notation "x <- m ;; k" := (bind m (fun x => k))
  (at level 61, m at next level, right associativity).
Notation "m ;;; k" := (bind m (fun _ => k))
  (at level 61, right associativity).

(** The state a method leaves behind, and what it gave. *)
Definition state_after {A} (m : M A) (s : UMS) : UMS := fst (m s).
Definition result_of {A} (m : M A) (s : UMS) : outcome A := snd (m s).

(** ** Array helpers *)

(** Mutation of the object that [find p] returns: the first element that
    satisfies [p] is replaced by its image, the others stay. *)
Fixpoint update_first {A : Type} (p : A -> bool) (f : A -> A) (l : list A)
  : list A :=
  match l with
  | [] => []
  | x :: r => if p x then f x :: r else x :: update_first p f r
  end.

Definition isSome {A : Type} (o : option A) : bool :=
  match o with Some _ => true | None => false end.

(** [g.grade || 0]: the enum values are all non-zero, hence truthy. *)
Definition gradeOrZero (o : option GradeEnum) : Z :=
  match o with Some g => gradeValue g | None => 0 end.

(** ** Methods of [UniversityManagementSystem] *)

Definition enrollStudent (student : StudentWithoutId.t) : M Student.t :=
  s <- get ;;
  let newStudent :=
    Student.mk (nextStudentId s)
      (StudentWithoutId.fullName student)
      (StudentWithoutId.faculty student)
      (StudentWithoutId.year student)
      (StudentWithoutId.status student)
      (StudentWithoutId.enrollmentDate student)
      (StudentWithoutId.groupNumber student) in
  modify (fun s => set_nextStudentId (nextStudentId s + 1) s) ;;;
  modify (fun s => set_students (students s ++ [newStudent]) s) ;;;
  ret newStudent.

Definition findCourse (courseId : Z) (s : UMS) : option Course.t :=
  find (fun c => Course.id c =? courseId) (courses s).

Definition findStudent (studentId : Z) (s : UMS) : option Student.t :=
  find (fun st => Student.id st =? studentId) (students s).

(** [this.grades.filter(g => g.courseId === courseId).length]. *)
Definition registrations (courseId : Z) (s : UMS) : Z :=
  Z.of_nat (length (filter (fun g => Grade.courseId g =? courseId) (grades s))).

Definition registerForCourse (studentId courseId : Z) (now : Date) : M unit :=
  s <- get ;;
  match findCourse courseId s, findStudent studentId s with
  | Some course, Some student =>
      if negb (Faculty_eqb (Course.faculty course) (Student.faculty student))
      then throw FacultyMismatch
      else if registrations courseId s >=? Course.maxStudents course
      then throw CourseFull
      else
        modify (fun s =>
          set_grades
            (grades s ++
               [Grade.mk studentId courseId None now (Course.semester course)])
            s)
  | _, _ => throw InvalidStudentOrCourse
  end.

Definition isRegistration (studentId courseId : Z) (g : Grade.t) : bool :=
  (Grade.studentId g =? studentId) && (Grade.courseId g =? courseId).

Definition setGrade (studentId courseId : Z) (grade : GradeEnum) (now : Date)
  : M unit :=
  s <- get ;;
  match find (isRegistration studentId courseId) (grades s) with
  | None => throw NotRegistered
  | Some _ =>
      modify (fun s =>
        set_grades
          (update_first (isRegistration studentId courseId)
             (Grade.set_grade_date grade now) (grades s))
          s)
  end.

Definition updateStudentStatus (studentId : Z) (newStatus : StudentStatus)
  : M unit :=
  s <- get ;;
  match findStudent studentId s with
  | None => throw InvalidStudent
  | Some student =>
      if StudentStatus_eqb (Student.status student) Expelled
         && negb (StudentStatus_eqb newStatus Academic_Leave)
      then throw IllegalTransition
      else
        modify (fun s =>
          set_students
            (update_first (fun st => Student.id st =? studentId)
               (Student.set_status newStatus) (students s))
            s)
  end.

(** The queries only read the state; they are functions of it. *)

Definition getStudentsByFaculty (s : UMS) (faculty : Faculty) : list Student.t :=
  filter (fun st => Faculty_eqb (Student.faculty st) faculty) (students s).

Definition getStudentGrades (s : UMS) (studentId : Z) : list Grade.t :=
  filter (fun g => Grade.studentId g =? studentId) (grades s).

Definition getAvailableCourses (s : UMS) (faculty : Faculty) (semester : Semester)
  : list Course.t :=
  filter
    (fun c => Faculty_eqb (Course.faculty c) faculty
              && Semester_eqb (Course.semester c) semester)
    (courses s).

(** The records that enter the average of a student. *)
Definition gradedRecords (s : UMS) (studentId : Z) : list Grade.t :=
  filter (fun g => (Grade.studentId g =? studentId) && isSome (Grade.grade g))
    (grades s).

Definition calculateAverageGrade (s : UMS) (studentId : Z) : number :=
  let studentGrades := gradedRecords s studentId in
  let total :=
    fold_left (fun acc g => acc + gradeOrZero (Grade.grade g)) studentGrades 0 in
  match length studentGrades with
  | O => Finite 0
  | S _ => js_div total (Z.of_nat (length studentGrades))
  end.

Definition getTopStudentsByFaculty (s : UMS) (faculty : Faculty) : list Student.t :=
  let studentsByFaculty := getStudentsByFaculty s faculty in
  filter
    (fun student =>
       let average := calculateAverageGrade s (Student.id student) in
       number_geb average (gradeValue Excellent - 1))
    studentsByFaculty.

(** ** The average as a double *)

Module Double.

(** An IEEE-754 binary64 number: 53 bits of precision, infinities at
    exponent 1024. *)
Definition t : Set := spec_float.

Definition prec : Z := 53.

Definition emax : Z := 1024.

(** The number that holds the integer [z]: mantissa [|z|], exponent 0.
    The division below aligns its operands on their numbers of digits, so
    they need not be normalised. *)
Definition of_int (z : Z) : t :=
  match z with
  | Z0 => S754_zero false
  | Zpos p => S754_finite false p 0
  | Zneg p => S754_finite true p 0
  end.

(** [a / b]: the IEEE-754 division, rounding to nearest, ties to even. *)
Definition div (a b : t) : t := SFdiv prec emax a b.


(** The method, with the division of doubles. *)
Definition calculateAverageGrade (s : UMS) (studentId : Z) : t :=
  let studentGrades := gradedRecords s studentId in
  let total :=
    fold_left (fun acc g => acc + gradeOrZero (Grade.grade g)) studentGrades 0 in
  match length studentGrades with
  | O => of_int 0
  | S _ => div (of_int total) (of_int (Z.of_nat (length studentGrades)))
  end.

End Double.

(** ** Notions the statements are written with *)

(** The numeric values of the non-null grades of a student, in the order of
    the records. *)
Definition gradeValues (s : UMS) (studentId : Z) : list Z :=
  flat_map
    (fun g =>
       if Grade.studentId g =? studentId then
         match Grade.grade g with
         | Some v => [gradeValue v]
         | None => []
         end
       else [])
    (grades s).

Definition sumZ (l : list Z) : Z := fold_right Z.add 0 l.

(** The arithmetic mean of a list of integers, as a rational. *)
Definition mean (l : list Z) : Q :=
  Qdiv (inject_Z (sumZ l)) (inject_Z (Z.of_nat (length l))).

(** A state that holds one student and the given grade records. *)
Definition oneStudent (f : Faculty) (st : StudentStatus) : Student.t :=
  Student.mk 1 "Ivan Ivanov" f 1 st 0 "CS-101".

Definition gradedState (gs : list (option GradeEnum)) : UMS :=
  mkUMS [oneStudent Computer_Science Active] []
    (map (fun g => Grade.mk 1 1 g 0 First) gs) 2 1.

(** The object literal [{ ...student, id }]. *)
Definition withId (i : Z) (student : StudentWithoutId.t) : Student.t :=
  Student.mk i
    (StudentWithoutId.fullName student)
    (StudentWithoutId.faculty student)
    (StudentWithoutId.year student)
    (StudentWithoutId.status student)
    (StudentWithoutId.enrollmentDate student)
    (StudentWithoutId.groupNumber student).

(** A sequence of [enrollStudent] calls, one per input, collecting the
    returned records in call order. *)
Fixpoint enrollAll (l : list StudentWithoutId.t) : M (list Student.t) :=
  match l with
  | [] => ret []
  | student :: rest =>
      st <- enrollStudent student ;;
      sts <- enrollAll rest ;;
      ret (st :: sts)
  end.

(** Successive [registerForCourse] calls for one course, each with the
    student id and the time of the call; stops at the first that throws. *)
Fixpoint registerAll (courseId : Z) (l : list (Z * Date)) : M unit :=
  match l with
  | [] => ret tt
  | (studentId, now) :: rest =>
      registerForCourse studentId courseId now ;;;
      registerAll courseId rest
  end.

(** The record that a successful registration pushes. *)
Definition registration (studentId courseId : Z) (now : Date)
           (course : Course.t) : Grade.t :=
  Grade.mk studentId courseId None now (Course.semester course).

(** The records that successive enrolments store when the counter stands at
    [first]: the inputs, in order, each with the next id. *)
Fixpoint enrolled (first : Z) (l : list StudentWithoutId.t) : list Student.t :=
  match l with
  | [] => []
  | student :: rest => withId first student :: enrolled (first + 1) rest
  end.

(** The ids [first], [first + 1], ... ([n] of them). *)
Definition idsFrom (first : Z) (n : nat) : list Z :=
  map (fun i => first + Z.of_nat i) (seq 0 n).

(** A student that exists and belongs to the faculty of [course]. *)
Definition eligible (s : UMS) (course : Course.t) (studentId : Z) : Prop :=
  exists student,
    findStudent studentId s = Some student
    /\ Course.faculty course = Student.faculty student.

(** Two student records that agree on every field but [status]. *)
Definition sameButStatus (a b : Student.t) : Prop :=
  Student.id a = Student.id b
  /\ Student.fullName a = Student.fullName b
  /\ Student.faculty a = Student.faculty b
  /\ Student.year a = Student.year b
  /\ Student.enrollmentDate a = Student.enrollmentDate b
  /\ Student.groupNumber a = Student.groupNumber b.

(** Two states that differ at most in the [status] fields of their
    students. *)
Definition statusVariant (s s' : UMS) : Prop :=
  Forall2 sameButStatus (students s) (students s')
  /\ courses s = courses s'
  /\ grades s = grades s'
  /\ nextStudentId s = nextStudentId s'
  /\ nextCourseId s = nextCourseId s'.

(** Sample data, after the script at the end of the source. *)
Definition course1 : Course.t :=
  Course.mk 1 "Data Structures" Mandatory 5 First Computer_Science 2.

Definition course2 : Course.t :=
  Course.mk 2 "Microeconomics" Optional 3 Second Economics 1.

(** A second course that reuses the id of [course1]. *)
Definition course1bis : Course.t :=
  Course.mk 1 "Algorithms" Optional 4 First Computer_Science 1.

Definition campus (st : StudentStatus) (gs : list Grade.t) : UMS :=
  mkUMS [oneStudent Computer_Science st] [course1; course2] gs 2 1.

(** The script that follows the class in the source: two enrolments, the
    two courses pushed into the private array, two registrations, two
    grades and one status change.  The clock reads are [10], [20], ... *)
Definition ivan : StudentWithoutId.t :=
  StudentWithoutId.mk "Ivan Ivanov" Computer_Science 1 Active 0 "CS-101".

Definition maria : StudentWithoutId.t :=
  StudentWithoutId.mk "Maria Petrenko" Economics 2 Active 0 "ECO-201".

Definition pushCourses (cs : list Course.t) : M unit :=
  modify (fun s =>
    mkUMS (students s) (courses s ++ cs) (grades s)
          (nextStudentId s) (nextCourseId s)).

Definition script : M unit :=
  student1 <- enrollStudent ivan ;;
  student2 <- enrollStudent maria ;;
  pushCourses [course1; course2] ;;;
  registerForCourse (Student.id student1) (Course.id course1) 10 ;;;
  registerForCourse (Student.id student2) (Course.id course2) 20 ;;;
  setGrade (Student.id student1) (Course.id course1) Excellent 30 ;;;
  setGrade (Student.id student2) (Course.id course2) Good 40 ;;;
  updateStudentStatus (Student.id student1) Graduated.

(** ** Callers *)

(** One call of a mutating method of the class. *)
Inductive Call : Set :=
| EnrollStudent (student : StudentWithoutId.t)
| RegisterForCourse (studentId courseId : Z) (now : Date)
| SetGrade (studentId courseId : Z) (grade : GradeEnum) (now : Date)
| UpdateStudentStatus (studentId : Z) (newStatus : StudentStatus).

Definition perform (c : Call) : M unit :=
  match c with
  | EnrollStudent student => enrollStudent student ;;; ret tt
  | RegisterForCourse studentId courseId now =>
      registerForCourse studentId courseId now
  | SetGrade studentId courseId grade now =>
      setGrade studentId courseId grade now
  | UpdateStudentStatus studentId newStatus =>
      updateStudentStatus studentId newStatus
  end.

(** A caller that makes the calls one after the other and, like the
    [try]/[catch] blocks of the script, goes on after a thrown error. *)
Fixpoint performAll (cs : list Call) (s : UMS) : UMS :=
  match cs with
  | [] => s
  | c :: rest => performAll rest (state_after (perform c) s)
  end.

(** ** Invariants *)

(** For every id, the course that a lookup of the id finds holds no more
    grade records of that id than its [maxStudents].  A stored course
    behind another one of the same id is never found and is not covered. *)
Definition withinCapacity (s : UMS) : Prop :=
  forall courseId course,
    findCourse courseId s = Some course ->
    registrations courseId s <= Course.maxStudents course.

(** The stored course ids are pairwise distinct. *)
Definition distinctCourseIds (s : UMS) : Prop :=
  NoDup (map Course.id (courses s)).

(** No stored course holds more grade records than its [maxStudents]. *)
Definition everyCourseWithinCapacity (s : UMS) : Prop :=
  forall course,
    In course (courses s) ->
    registrations (Course.id course) s <= Course.maxStudents course.

(** The stored student ids are pairwise distinct and below the counter. *)
Definition wellNumbered (s : UMS) : Prop :=
  NoDup (map Student.id (students s))
  /\ Forall (fun st => Student.id st < nextStudentId s) (students s).

(** Every grade record refers to a stored student and a stored course of
    one faculty, and carries the semester of that course. *)
Definition wellReferenced (s : UMS) : Prop :=
  Forall
    (fun g =>
       exists student course,
         findStudent (Grade.studentId g) s = Some student
         /\ findCourse (Grade.courseId g) s = Some course
         /\ Course.faculty course = Student.faculty student
         /\ Grade.semester g = Course.semester course)
    (grades s).

(** The pair of ids of a grade record. *)
Definition pairOf (g : Grade.t) : Z * Z :=
  (Grade.studentId g, Grade.courseId g).

(** ** Properties of the queries *)

Section Average.

Variable s : UMS.
Variable studentId : Z.

Lemma gradedRecords_values :
  map (fun g => gradeOrZero (Grade.grade g)) (gradedRecords s studentId)
  = gradeValues s studentId.
Proof.
  unfold gradedRecords, gradeValues.
  induction (grades s) as [|g l IH]; simpl; [reflexivity|].
  destruct (Grade.studentId g =? studentId); simpl; [|exact IH].
  destruct (Grade.grade g) as [v|] eqn:E; simpl; [|exact IH].
  rewrite E, IH. reflexivity.
Qed.

Lemma gradedRecords_length :
  length (gradedRecords s studentId) = length (gradeValues s studentId).
Proof. rewrite <- gradedRecords_values. now rewrite length_map. Qed.

Lemma total_sumZ (l : list Grade.t) (acc : Z) :
  fold_left (fun a g => a + gradeOrZero (Grade.grade g)) l acc
  = acc + sumZ (map (fun g => gradeOrZero (Grade.grade g)) l).
Proof.
  revert acc. induction l as [|g l IH]; intros acc; simpl.
  - lia.
  - rewrite IH. lia.
Qed.

(** The method as an equation over the spec-side notions. *)
Lemma calculateAverageGrade_eq :
  calculateAverageGrade s studentId
  = match gradeValues s studentId with
    | [] => Finite 0
    | _ :: _ => Finite (Qred (mean (gradeValues s studentId)))
    end.
Proof.
  unfold calculateAverageGrade, mean.
  rewrite total_sumZ, gradedRecords_values, gradedRecords_length.
  destruct (gradeValues s studentId) as [|v l]; [reflexivity|].
  cbn [length]. unfold js_div.
  replace (Z.of_nat (S (length l)) =? 0) with false; [reflexivity|].
  symmetry. apply Z.eqb_neq. lia.
Qed.

Lemma calculateAverageGrade_finite :
  exists q, calculateAverageGrade s studentId = Finite q.
Proof.
  rewrite calculateAverageGrade_eq.
  destruct (gradeValues s studentId); eauto.
Qed.

End Average.

Example average_5_4 :
  calculateAverageGrade (gradedState [Some Excellent; Some Good]) 1
  = Finite (9 # 2).
Proof. reflexivity. Qed.

Example average_no_grades :
  calculateAverageGrade (gradedState [None; None]) 1 = Finite 0.
Proof. reflexivity. Qed.

(** [number_geb] against the order of the rationals. *)
Lemma number_geb_Finite (x : number) (k : Z) :
  (exists q, x = Finite q) ->
  number_geb x k = true <-> exists q, x = Finite q /\ Qle (inject_Z k) q.
Proof.
  intros [q ->]. simpl. rewrite Qle_bool_iff. split.
  - intros H. exists q. split; [reflexivity | exact H].
  - intros (q' & E & H). injection E as ->. exact H.
Qed.

(** C1. [getTopStudentsByFaculty] returns exactly the students of the
    faculty whose average is at least 4.  The bound is inclusive: a student
    of the faculty whose average is exactly 4 is returned; a student without
    graded records, whose average is 0, is not. *)
Theorem getTopStudentsByFaculty_exact (s : UMS) (faculty : Faculty) :
  (forall x,
      In x (getTopStudentsByFaculty s faculty) <->
      In x (students s)
      /\ Student.faculty x = faculty
      /\ exists q, calculateAverageGrade s (Student.id x) = Finite q
                   /\ Qle 4 q)
  /\ (forall x q,
         In x (students s) -> Student.faculty x = faculty ->
         calculateAverageGrade s (Student.id x) = Finite q -> Qeq q 4 ->
         In x (getTopStudentsByFaculty s faculty))
  /\ (forall x,
         gradeValues s (Student.id x) = [] ->
         calculateAverageGrade s (Student.id x) = Finite 0
         /\ ~ In x (getTopStudentsByFaculty s faculty)).
Proof.
  assert (Hin : forall x,
      In x (getTopStudentsByFaculty s faculty) <->
      In x (students s)
      /\ Student.faculty x = faculty
      /\ exists q, calculateAverageGrade s (Student.id x) = Finite q
                   /\ Qle 4 q).
  { intros x. unfold getTopStudentsByFaculty, getStudentsByFaculty.
    rewrite !filter_In.
    rewrite (number_geb_Finite _ _ (calculateAverageGrade_finite s _)).
    change (inject_Z (gradeValue Excellent - 1)) with (4 : Q).
    assert (Hf : Faculty_eqb (Student.faculty x) faculty = true
                 <-> Student.faculty x = faculty).
    { destruct (Student.faculty x), faculty; simpl; split;
        congruence. }
    rewrite Hf. tauto. }
  split; [exact Hin|]. split.
  - intros x q Hx Hf Hq Hq4. apply Hin. repeat split; try assumption.
    exists q. split; [exact Hq|]. rewrite Hq4. apply Qle_refl.
  - intros x Hnone.
    assert (H0 : calculateAverageGrade s (Student.id x) = Finite 0).
    { rewrite calculateAverageGrade_eq, Hnone. reflexivity. }
    split; [exact H0|]. intros Hx. apply Hin in Hx.
    destruct Hx as (_ & _ & q & Hq & Hle).
    rewrite H0 in Hq. injection Hq as <-. revert Hle. compute. congruence.
Qed.

(** A student with the single grade Good, average exactly 4, is a top
    student; the same student without any grade is not. *)
Lemma getTopStudentsByFaculty_exact_witness :
  In (oneStudent Computer_Science Active)
     (getTopStudentsByFaculty (gradedState [Some Good]) Computer_Science)
  /\ ~ In (oneStudent Computer_Science Active)
       (getTopStudentsByFaculty (gradedState [None]) Computer_Science).
Proof.
  split.
  - apply (proj1 (proj2 (getTopStudentsByFaculty_exact
                           (gradedState [Some Good]) Computer_Science))
             (oneStudent Computer_Science Active) 4%Q).
    + simpl. left. reflexivity.
    + reflexivity.
    + reflexivity.
    + reflexivity.
  - apply (proj2 (proj2 (getTopStudentsByFaculty_exact
                           (gradedState [None]) Computer_Science))
             (oneStudent Computer_Science Active)).
    reflexivity.
Defined.

Example top_grade_5_included :
  getTopStudentsByFaculty (gradedState [Some Excellent]) Computer_Science
  = [oneStudent Computer_Science Active].
Proof. reflexivity. Qed.

Example top_grade_3_excluded :
  getTopStudentsByFaculty (gradedState [Some Satisfactory]) Computer_Science
  = [].
Proof. reflexivity. Qed.

(** ** Properties of the mutating methods *)

Lemma Faculty_eqb_eq (a b : Faculty) : Faculty_eqb a b = true <-> a = b.
Proof. destruct a, b; simpl; split; congruence. Qed.

Lemma StudentStatus_eqb_eq (a b : StudentStatus) :
  StudentStatus_eqb a b = true <-> a = b.
Proof. destruct a, b; simpl; split; congruence. Qed.

Ltac run_method :=
  unfold result_of, state_after, bind, get, throw, modify, ret; simpl.

(** What [find] and the mutation of the found object do to an array. *)
Lemma find_split {A : Type} (p : A -> bool) (f : A -> A) (l : list A) (x : A) :
  find p l = Some x ->
  exists before after,
    l = before ++ x :: after
    /\ (forall y, In y before -> p y = false)
    /\ p x = true
    /\ update_first p f l = before ++ f x :: after.
Proof.
  induction l as [|a l IH]; simpl; [discriminate|].
  destruct (p a) eqn:Ha.
  - intros [= ->]. exists [], l. simpl. repeat split; tauto.
  - intros H. destruct (IH H) as (b & r & -> & Hb & Hx & Hu).
    exists (a :: b), r. simpl. rewrite Hu. repeat split; trivial.
    intros y [<-|Hy]; auto.
Qed.

Lemma find_none_iff {A : Type} (p : A -> bool) (l : list A) :
  find p l = None <-> forall y, In y l -> p y = false.
Proof.
  split; [apply find_none|].
  induction l as [|a l IH]; simpl; [reflexivity|]. intros H.
  rewrite (H a (or_introl eq_refl)). apply IH. intros y Hy. apply H. now right.
Qed.

Section Registration.

Variables (studentId courseId : Z) (now : Date).

(** The body of [registerForCourse], branch by branch. *)
Lemma registerForCourse_cases (s : UMS) :
  registerForCourse studentId courseId now s =
  match findCourse courseId s, findStudent studentId s with
  | Some course, Some student =>
      if negb (Faculty_eqb (Course.faculty course) (Student.faculty student))
      then (s, Throw FacultyMismatch)
      else if registrations courseId s >=? Course.maxStudents course
      then (s, Throw CourseFull)
      else (set_grades (grades s ++ [registration studentId courseId now course]) s, Return tt)
  | _, _ => (s, Throw InvalidStudentOrCourse)
  end.
Proof.
  unfold registerForCourse. run_method.
  destruct (findCourse courseId s) as [course|]; [|reflexivity].
  destruct (findStudent studentId s) as [student|]; [|reflexivity].
  destruct (negb _); [reflexivity|].
  destruct (_ >=? _); reflexivity.
Qed.

Lemma registrations_push (s : UMS) (course : Course.t) :
  registrations courseId
    (set_grades (grades s ++ [registration studentId courseId now course]) s)
  = registrations courseId s + 1.
Proof.
  unfold registrations. simpl. rewrite filter_app, length_app. simpl.
  rewrite Z.eqb_refl. simpl. lia.
Qed.

(** An eligible student below capacity: the call succeeds and pushes. *)
Lemma registerForCourse_ok (s : UMS) (course : Course.t) :
  findCourse courseId s = Some course ->
  eligible s course studentId ->
  registrations courseId s < Course.maxStudents course ->
  registerForCourse studentId courseId now s
  = (set_grades (grades s ++ [registration studentId courseId now course]) s, Return tt).
Proof.
  intros Hc (student & Hs & Hf) Hlt.
  rewrite registerForCourse_cases, Hc, Hs.
  apply Faculty_eqb_eq in Hf. rewrite Hf. simpl.
  replace (_ >=? _) with false; [reflexivity|].
  symmetry. rewrite Z.geb_leb. apply Z.leb_gt. exact Hlt.
Qed.

(** An eligible student at capacity: [CourseFull], state untouched. *)
Lemma registerForCourse_full (s : UMS) (course : Course.t) :
  findCourse courseId s = Some course ->
  eligible s course studentId ->
  registrations courseId s >= Course.maxStudents course ->
  registerForCourse studentId courseId now s = (s, Throw CourseFull).
Proof.
  intros Hc (student & Hs & Hf) Hge.
  rewrite registerForCourse_cases, Hc, Hs.
  apply Faculty_eqb_eq in Hf. rewrite Hf. simpl.
  replace (_ >=? _) with true; [reflexivity|].
  symmetry. rewrite Z.geb_leb. apply Z.leb_le. lia.
Qed.

End Registration.

(** Eligibility only looks at the student list. *)
Lemma eligible_students (s s' : UMS) (course : Course.t) (studentId : Z) :
  students s' = students s ->
  eligible s course studentId -> eligible s' course studentId.
Proof.
  intros E (student & Hs & Hf). exists student. split; [|exact Hf].
  unfold findStudent in *. now rewrite E.
Qed.

(** Filling a course: as long as places remain, every registration of an
    eligible student succeeds and takes one place. *)
Lemma registerAll_fills (courseId : Z) (course : Course.t)
      (regs : list (Z * Date)) :
  forall s,
    findCourse courseId s = Some course ->
    Forall (fun r => eligible s course (fst r)) regs ->
    registrations courseId s + Z.of_nat (length regs)
    <= Course.maxStudents course ->
    exists s',
      registerAll courseId regs s = (s', Return tt)
      /\ students s' = students s
      /\ courses s' = courses s
      /\ registrations courseId s'
         = registrations courseId s + Z.of_nat (length regs).
Proof.
  induction regs as [|[sid now] regs IH]; intros s Hc Hall Hcap.
  - exists s. simpl. repeat split. lia.
  - inversion Hall as [|? ? He Hrest]; subst. simpl in He.
    cbn [length] in Hcap. rewrite Nat2Z.inj_succ in Hcap.
    cbn [registerAll]. unfold bind at 1.
    rewrite (registerForCourse_ok sid courseId now s course Hc He)
      by lia.
    set (s1 := set_grades _ s).
    destruct (IH s1) as (s' & Hrun & Hst & Hco & Hreg).
    + exact Hc.
    + eapply Forall_impl; [|exact Hrest].
      intros r. apply eligible_students. reflexivity.
    + unfold s1. rewrite registrations_push. lia.
    + exists s'. rewrite Hrun. repeat split; trivial.
      rewrite Hreg. unfold s1. rewrite registrations_push.
      cbn [length]. lia.
Qed.

(** C2. When the student and the course exist and share a faculty,
    [registerForCourse] throws [CourseFull] exactly when the number of
    grade records of the course is at least [maxStudents].  Starting from
    a course without registrations, [maxStudents] registrations of
    eligible students all succeed and the next one throws [CourseFull]. *)
Theorem registerForCourse_CourseFull
        (s : UMS) (studentId courseId : Z) (now : Date)
        (course : Course.t) (student : Student.t) :
  findCourse courseId s = Some course ->
  findStudent studentId s = Some student ->
  Course.faculty course = Student.faculty student ->
  (result_of (registerForCourse studentId courseId now) s = Throw CourseFull
   <-> registrations courseId s >= Course.maxStudents course)
  /\ (forall regs,
         registrations courseId s = 0 ->
         Forall (fun r => eligible s course (fst r)) regs ->
         Z.of_nat (length regs) = Course.maxStudents course ->
         result_of (registerAll courseId regs) s = Return tt
         /\ result_of (registerForCourse studentId courseId now)
                      (state_after (registerAll courseId regs) s)
            = Throw CourseFull).
Proof.
  intros Hc Hs Hf.
  assert (He : eligible s course studentId) by (exists student; auto).
  split.
  - split.
    + intros H. destruct (Z_lt_ge_dec (registrations courseId s)
                                      (Course.maxStudents course))
        as [Hlt|Hge]; [|exact Hge].
      unfold result_of in H.
      rewrite (registerForCourse_ok _ _ now s course Hc He Hlt) in H.
      discriminate.
    + intros Hge. unfold result_of.
      now rewrite (registerForCourse_full _ _ now s course Hc He Hge).
  - intros regs H0 Hall Hlen.
    destruct (registerAll_fills courseId course regs s Hc Hall)
      as (s' & Hrun & Hst & Hco & Hreg); [lia|].
    unfold result_of, state_after. rewrite Hrun. simpl.
    split; [reflexivity|].
    rewrite (registerForCourse_full studentId courseId now s' course);
      [reflexivity| | |lia].
    + unfold findCourse in *. now rewrite Hco.
    + now apply (eligible_students s s').
Qed.

(** [course1] has two places: two registrations pass, the third does not. *)
Lemma registerForCourse_CourseFull_witness :
  result_of (registerAll 1 [(1, 10); (1, 20)]) (campus Active []) = Return tt
  /\ result_of (registerForCourse 1 1 30)
               (state_after (registerAll 1 [(1, 10); (1, 20)])
                            (campus Active []))
     = Throw CourseFull.
Proof.
  apply (proj2 (registerForCourse_CourseFull (campus Active []) 1 1 30
                  course1 (oneStudent Computer_Science Active)
                  eq_refl eq_refl eq_refl)).
  - reflexivity.
  - repeat constructor;
      (exists (oneStudent Computer_Science Active); split; reflexivity).
  - reflexivity.
Defined.

(** C7. When the student and the course exist and their faculties differ,
    [registerForCourse] throws [FacultyMismatch], whatever the number of
    records the course already has; the state stays as it was. *)
Theorem registerForCourse_FacultyMismatch
        (s : UMS) (studentId courseId : Z) (now : Date)
        (course : Course.t) (student : Student.t) :
  findCourse courseId s = Some course ->
  findStudent studentId s = Some student ->
  Course.faculty course <> Student.faculty student ->
  registerForCourse studentId courseId now s = (s, Throw FacultyMismatch).
Proof.
  intros Hc Hs Hf. rewrite registerForCourse_cases, Hc, Hs.
  destruct (Faculty_eqb _ _) eqn:E; [|reflexivity].
  apply Faculty_eqb_eq in E. contradiction.
Qed.

(** A Computer Science student and the Economics course: the mismatch is
    reported both when the course is empty and when it is already full. *)
Lemma registerForCourse_FacultyMismatch_witness :
  registerForCourse 1 2 30 (campus Active [])
  = (campus Active [], Throw FacultyMismatch)
  /\ registrations 2 (campus Active [Grade.mk 7 2 None 0 Second])
     >= Course.maxStudents course2
  /\ registerForCourse 1 2 30 (campus Active [Grade.mk 7 2 None 0 Second])
     = (campus Active [Grade.mk 7 2 None 0 Second], Throw FacultyMismatch).
Proof.
  split; [|split].
  - apply (registerForCourse_FacultyMismatch (campus Active []) 1 2 30
             course2 (oneStudent Computer_Science Active));
      [reflexivity | reflexivity | discriminate].
  - vm_compute. discriminate.
  - apply (registerForCourse_FacultyMismatch
             (campus Active [Grade.mk 7 2 None 0 Second]) 1 2 30
             course2 (oneStudent Computer_Science Active));
      [reflexivity | reflexivity | discriminate].
Defined.

Lemma isRegistration_true (studentId courseId : Z) (g : Grade.t) :
  isRegistration studentId courseId g = true
  <-> Grade.studentId g = studentId /\ Grade.courseId g = courseId.
Proof.
  unfold isRegistration. rewrite andb_true_iff, !Z.eqb_eq. tauto.
Qed.

Lemma isRegistration_false (studentId courseId : Z) (g : Grade.t) :
  isRegistration studentId courseId g = false
  <-> ~ (Grade.studentId g = studentId /\ Grade.courseId g = courseId).
Proof.
  rewrite <- isRegistration_true. destruct (isRegistration _ _ _); split;
    congruence.
Qed.

(** The body of [setGrade], branch by branch. *)
Lemma setGrade_cases (studentId courseId : Z) (grade : GradeEnum) (now : Date)
      (s : UMS) :
  setGrade studentId courseId grade now s =
  match find (isRegistration studentId courseId) (grades s) with
  | None => (s, Throw NotRegistered)
  | Some _ =>
      (set_grades
         (update_first (isRegistration studentId courseId)
            (Grade.set_grade_date grade now) (grades s)) s,
       Return tt)
  end.
Proof.
  unfold setGrade. run_method.
  destruct (find _ (grades s)); reflexivity.
Qed.

(** The body of [updateStudentStatus], branch by branch. *)
Lemma updateStudentStatus_cases (studentId : Z) (newStatus : StudentStatus)
      (s : UMS) :
  updateStudentStatus studentId newStatus s =
  match findStudent studentId s with
  | None => (s, Throw InvalidStudent)
  | Some student =>
      if StudentStatus_eqb (Student.status student) Expelled
         && negb (StudentStatus_eqb newStatus Academic_Leave)
      then (s, Throw IllegalTransition)
      else
        (set_students
           (update_first (fun st => Student.id st =? studentId)
              (Student.set_status newStatus) (students s)) s,
         Return tt)
  end.
Proof.
  unfold updateStudentStatus. run_method.
  destruct (findStudent studentId s) as [student|]; [|reflexivity].
  destruct (_ && _); reflexivity.
Qed.

(** C3. Whenever [registerForCourse], [setGrade] or [updateStudentStatus]
    throws, the state it leaves behind (students, courses, grades and the
    id counters) is the state it was called in. *)
Theorem failure_leaves_state_unchanged (s : UMS) (e : Error) :
  (forall studentId courseId now,
      result_of (registerForCourse studentId courseId now) s = Throw e ->
      state_after (registerForCourse studentId courseId now) s = s)
  /\ (forall studentId courseId grade now,
         result_of (setGrade studentId courseId grade now) s = Throw e ->
         state_after (setGrade studentId courseId grade now) s = s)
  /\ (forall studentId newStatus,
         result_of (updateStudentStatus studentId newStatus) s = Throw e ->
         state_after (updateStudentStatus studentId newStatus) s = s).
Proof.
  unfold result_of, state_after. repeat split.
  - intros studentId courseId now. rewrite registerForCourse_cases.
    destruct (findCourse courseId s); [|reflexivity].
    destruct (findStudent studentId s); [|reflexivity].
    destruct (negb _); [reflexivity|].
    destruct (_ >=? _); [reflexivity|]. simpl. discriminate.
  - intros studentId courseId grade now. rewrite setGrade_cases.
    destruct (find _ _); [|reflexivity]. simpl. discriminate.
  - intros studentId newStatus. rewrite updateStudentStatus_cases.
    destruct (findStudent studentId s); [|reflexivity].
    destruct (_ && _); [reflexivity|]. simpl. discriminate.
Qed.

(** A full course, an unregistered pair and an expelled student: the three
    calls throw and each leaves the state as it found it. *)
Lemma failure_leaves_state_unchanged_witness :
  let s := campus Expelled [Grade.mk 7 1 None 0 First;
                            Grade.mk 8 1 None 0 First] in
  state_after (registerForCourse 1 1 30) s = s
  /\ state_after (setGrade 1 1 Good 30) s = s
  /\ state_after (updateStudentStatus 1 Active) s = s.
Proof.
  intros s. split; [|split].
  - apply (proj1 (failure_leaves_state_unchanged s CourseFull)).
    reflexivity.
  - apply (proj1 (proj2 (failure_leaves_state_unchanged s NotRegistered))).
    reflexivity.
  - apply (proj2 (proj2 (failure_leaves_state_unchanged s IllegalTransition))).
    reflexivity.
Defined.

Lemma update_first_twice {A : Type} (p : A -> bool) (f1 f2 : A -> A)
      (l : list A) :
  (forall x, p (f1 x) = p x) ->
  (forall x, f2 (f1 x) = f2 x) ->
  update_first p f2 (update_first p f1 l) = update_first p f2 l.
Proof.
  intros Hp Hf. induction l as [|a l IH]; simpl; [reflexivity|].
  destruct (p a) eqn:Ha; simpl.
  - now rewrite Hp, Ha, Hf.
  - now rewrite Ha, IH.
Qed.

Lemma find_update_first {A : Type} (p : A -> bool) (f : A -> A) (l : list A) :
  (forall x, p (f x) = p x) ->
  find p (update_first p f l) = option_map f (find p l).
Proof.
  intros Hp. induction l as [|a l IH]; simpl; [reflexivity|].
  destruct (p a) eqn:Ha; simpl.
  - now rewrite Hp, Ha.
  - now rewrite Ha, IH.
Qed.

(** C5. [setGrade] throws [NotRegistered] exactly when no grade record
    carries the pair of ids.  When one does, the first such record gets the
    supplied grade and the time of the call, every other record and the
    rest of the state stay, and the call returns.  A later call for the
    same pair overwrites again: the state after both calls is the state
    after the later one alone. *)
Theorem setGrade_NotRegistered_or_overwrite
        (s : UMS) (studentId courseId : Z) (grade : GradeEnum) (now : Date) :
  (result_of (setGrade studentId courseId grade now) s = Throw NotRegistered
   <-> forall r, In r (grades s) ->
                 ~ (Grade.studentId r = studentId
                    /\ Grade.courseId r = courseId))
  /\ ((exists r, In r (grades s)
                 /\ Grade.studentId r = studentId
                 /\ Grade.courseId r = courseId) ->
      exists before r after,
        grades s = before ++ r :: after
        /\ (forall x, In x before ->
                      ~ (Grade.studentId x = studentId
                         /\ Grade.courseId x = courseId))
        /\ Grade.studentId r = studentId
        /\ Grade.courseId r = courseId
        /\ setGrade studentId courseId grade now s
           = (set_grades
                (before
                 ++ Grade.mk studentId courseId (Some grade) now
                      (Grade.semester r)
                 :: after) s,
              Return tt))
  /\ (forall grade' now',
         result_of (setGrade studentId courseId grade now) s = Return tt ->
         setGrade studentId courseId grade' now'
           (state_after (setGrade studentId courseId grade now) s)
         = (state_after (setGrade studentId courseId grade' now') s,
            Return tt)).
Proof.
  split; [|split].
  - unfold result_of. rewrite setGrade_cases.
    destruct (find _ (grades s)) as [r|] eqn:E; simpl.
    + split; [discriminate|]. intros H. exfalso.
      apply find_some in E. destruct E as [Hin Hp].
      apply (H r Hin). now apply isRegistration_true.
    + split; [|reflexivity]. intros _ r Hin.
      apply isRegistration_false.
      exact (proj1 (find_none_iff _ _) E r Hin).
  - intros (r0 & Hin & Hs & Hc). rewrite setGrade_cases.
    destruct (find _ (grades s)) as [r|] eqn:E.
    + destruct (find_split _ (Grade.set_grade_date grade now) _ _ E)
        as (before & after & Hl & Hb & Hr & Hu).
      apply isRegistration_true in Hr. destruct Hr as [Hrs Hrc].
      exists before, r, after. repeat split; trivial.
      * intros x Hx. apply isRegistration_false. now apply Hb.
      * rewrite Hu. unfold Grade.set_grade_date. now rewrite Hrs, Hrc.
    + exfalso. pose proof (proj1 (find_none_iff _ _) E r0 Hin) as H.
      apply isRegistration_false in H. tauto.
  - intros grade' now'. unfold result_of, state_after.
    rewrite !setGrade_cases.
    destruct (find _ (grades s)) as [r|] eqn:E; simpl; [|discriminate].
    intros _. rewrite find_update_first, E by reflexivity. simpl.
    rewrite update_first_twice by reflexivity. reflexivity.
Qed.

(** The student is registered twice for course 1; grading touches the first
    record only, and grading again replaces the grade. *)
Lemma setGrade_NotRegistered_or_overwrite_witness :
  let s := campus Active [Grade.mk 1 1 None 10 First;
                          Grade.mk 1 1 None 20 First] in
  grades (state_after (setGrade 1 1 Good 30) s)
  = [Grade.mk 1 1 (Some Good) 30 First; Grade.mk 1 1 None 20 First]
  /\ setGrade 1 1 Excellent 40 (state_after (setGrade 1 1 Good 30) s)
     = (state_after (setGrade 1 1 Excellent 40) s, Return tt)
  /\ result_of (setGrade 1 2 Good 30) s = Throw NotRegistered.
Proof.
  intros s. split; [reflexivity|]. split.
  - apply (proj2 (proj2 (setGrade_NotRegistered_or_overwrite s 1 1 Good 30))).
    reflexivity.
  - apply (proj1 (setGrade_NotRegistered_or_overwrite s 1 2 Good 30)).
    intros r [<-|[<-|[]]]; simpl; intros [_ H]; discriminate.
Defined.

(** C6. For a student that exists, [updateStudentStatus] throws
    [IllegalTransition] exactly when the current status is [Expelled] and
    the new one is not [Academic_Leave].  In every other case, whatever the
    two statuses are, the call returns and the new status is written into
    the first record with that id; nothing else changes. *)
Theorem updateStudentStatus_IllegalTransition
        (s : UMS) (studentId : Z) (newStatus : StudentStatus)
        (student : Student.t) :
  findStudent studentId s = Some student ->
  (result_of (updateStudentStatus studentId newStatus) s
   = Throw IllegalTransition
   <-> Student.status student = Expelled /\ newStatus <> Academic_Leave)
  /\ (Student.status student <> Expelled \/ newStatus = Academic_Leave ->
      exists before after,
        students s = before ++ student :: after
        /\ (forall x, In x before -> Student.id x <> studentId)
        /\ updateStudentStatus studentId newStatus s
           = (set_students
                (before ++ Student.set_status newStatus student :: after) s,
              Return tt)).
Proof.
  intros Hs. unfold result_of. rewrite updateStudentStatus_cases, Hs.
  destruct (find_split _ (Student.set_status newStatus) _ _ Hs)
    as (before & after & Hl & Hb & _ & Hu).
  split.
  - destruct (Student.status student), newStatus; simpl;
      (split; [try discriminate; intros _; split; congruence
              | intros [? ?]; congruence]).
  - intros H.
    replace (StudentStatus_eqb (Student.status student) Expelled
             && negb (StudentStatus_eqb newStatus Academic_Leave))
      with false.
    + exists before, after. rewrite Hu. repeat split; trivial.
      intros x Hx. apply Z.eqb_neq. now apply Hb.
    + symmetry. destruct H as [H| ->].
      * destruct (Student.status student); simpl; congruence.
      * now rewrite andb_comm.
Qed.

(** An expelled student may go on academic leave and nowhere else; a
    graduated student may become active again. *)
Lemma updateStudentStatus_IllegalTransition_witness :
  result_of (updateStudentStatus 1 Active) (campus Expelled [])
  = Throw IllegalTransition
  /\ result_of (updateStudentStatus 1 Graduated) (campus Expelled [])
     = Throw IllegalTransition
  /\ result_of (updateStudentStatus 1 Expelled) (campus Expelled [])
     = Throw IllegalTransition
  /\ updateStudentStatus 1 Academic_Leave (campus Expelled [])
     = (campus Academic_Leave [], Return tt)
  /\ updateStudentStatus 1 Active (campus Graduated [])
     = (campus Active [], Return tt).
Proof.
  pose (st := oneStudent Computer_Science).
  split; [|split; [|split; [|split]]].
  - apply (proj1 (updateStudentStatus_IllegalTransition
                    (campus Expelled []) 1 Active (st Expelled) eq_refl)).
    split; [reflexivity | discriminate].
  - apply (proj1 (updateStudentStatus_IllegalTransition
                    (campus Expelled []) 1 Graduated (st Expelled) eq_refl)).
    split; [reflexivity | discriminate].
  - apply (proj1 (updateStudentStatus_IllegalTransition
                    (campus Expelled []) 1 Expelled (st Expelled) eq_refl)).
    split; [reflexivity | discriminate].
  - reflexivity.
  - reflexivity.
Defined.

(** ** Enrolment *)

(** The body of [enrollStudent] as one state change. *)
Lemma enrollStudent_run (student : StudentWithoutId.t) (s : UMS) :
  enrollStudent student s
  = (mkUMS (students s ++ [withId (nextStudentId s) student])
           (courses s) (grades s) (nextStudentId s + 1) (nextCourseId s),
     Return (withId (nextStudentId s) student)).
Proof. reflexivity. Qed.

Lemma enrollAll_run (l : list StudentWithoutId.t) :
  forall s,
    enrollAll l s
    = (mkUMS (students s ++ enrolled (nextStudentId s) l)
             (courses s) (grades s)
             (nextStudentId s + Z.of_nat (length l)) (nextCourseId s),
       Return (enrolled (nextStudentId s) l)).
Proof.
  induction l as [|d l IH]; intros s.
  - destruct s. simpl. unfold ret. rewrite app_nil_r, Z.add_0_r. reflexivity.
  - cbn [enrollAll]. unfold bind at 1. rewrite enrollStudent_run.
    unfold bind at 1. rewrite IH. unfold ret. cbn [enrolled length].
    simpl students. simpl nextStudentId. simpl courses. simpl grades.
    simpl nextCourseId.
    rewrite <- app_assoc, Nat2Z.inj_succ. simpl app.
    replace (nextStudentId s + 1 + Z.of_nat (length l))
      with (nextStudentId s + Z.succ (Z.of_nat (length l))) by lia.
    reflexivity.
Qed.

Lemma idsFrom_S (first : Z) (n : nat) :
  idsFrom first (S n) = first :: idsFrom (first + 1) n.
Proof.
  unfold idsFrom. cbn [seq map]. rewrite <- seq_shift, map_map.
  f_equal; [lia|]. apply map_ext. intros i. lia.
Qed.

Lemma enrolled_ids (l : list StudentWithoutId.t) :
  forall first, map Student.id (enrolled first l) = idsFrom first (length l).
Proof.
  induction l as [|d l IH]; intros first; [reflexivity|].
  cbn [enrolled map length]. now rewrite idsFrom_S, IH.
Qed.

Lemma idsFrom_above (n : nat) (first low : Z) :
  low < first -> Forall (Z.lt low) (idsFrom first n).
Proof.
  intros H. apply Forall_forall. intros x Hx.
  apply in_map_iff in Hx. destruct Hx as (i & <- & _). lia.
Qed.

Lemma idsFrom_sorted (n : nat) :
  forall first, StronglySorted Z.lt (idsFrom first n).
Proof.
  induction n as [|n IH]; intros first.
  - constructor.
  - rewrite idsFrom_S. constructor; [apply IH|].
    apply idsFrom_above. lia.
Qed.

Lemma sorted_NoDup (l : list Z) : StronglySorted Z.lt l -> NoDup l.
Proof.
  induction 1 as [|a l Hs IH Ha]; constructor; [|exact IH].
  intros Hin. rewrite Forall_forall in Ha. specialize (Ha a Hin). lia.
Qed.

Lemma enrolled_verbatim (l : list StudentWithoutId.t) :
  forall first,
    Forall2 (fun st student => st = withId (Student.id st) student)
            (enrolled first l) l.
Proof.
  induction l as [|d l IH]; intros first; constructor; [reflexivity|apply IH].
Qed.

(** C8. Every sequence of [enrollStudent] calls succeeds.  The ids of the
    returned students are consecutive from the counter on, hence strictly
    increasing and without repeats, and on a fresh instance they start at
    1.  Each returned student is the input with that id added, and the
    returned students are the records appended to the student list. *)
Theorem enrollStudent_ids (l : list StudentWithoutId.t) (s : UMS) :
  nextStudentId init = 1
  /\ exists sts,
      result_of (enrollAll l) s = Return sts
      /\ map Student.id sts = idsFrom (nextStudentId s) (length l)
      /\ StronglySorted Z.lt (map Student.id sts)
      /\ NoDup (map Student.id sts)
      /\ Forall2 (fun st student => st = withId (Student.id st) student) sts l
      /\ students (state_after (enrollAll l) s) = students s ++ sts
      /\ nextStudentId (state_after (enrollAll l) s)
         = nextStudentId s + Z.of_nat (length l).
Proof.
  split; [reflexivity|].
  exists (enrolled (nextStudentId s) l).
  unfold result_of, state_after. rewrite enrollAll_run. simpl.
  rewrite enrolled_ids.
  repeat split.
  - apply idsFrom_sorted.
  - apply sorted_NoDup, idsFrom_sorted.
  - apply enrolled_verbatim.
Qed.

Example enroll_two :
  result_of (enrollAll [ivan; maria]) init
  = Return [withId 1 ivan; withId 2 maria].
Proof. reflexivity. Qed.

(** ** Registering twice, and the status field *)

(** C9. A second [registerForCourse] for the same pair of ids is not
    refused as a duplicate.  When the first call succeeded and places
    remain after it, the second call succeeds as well; the grade list then
    ends with two records that carry the same pair, and the number of
    records of the course has grown by two. *)
Theorem registerForCourse_duplicate
        (s : UMS) (studentId courseId : Z) (now1 now2 : Date)
        (course : Course.t) (student : Student.t) :
  findCourse courseId s = Some course ->
  findStudent studentId s = Some student ->
  Course.faculty course = Student.faculty student ->
  result_of (registerForCourse studentId courseId now1) s = Return tt ->
  registrations courseId
    (state_after (registerForCourse studentId courseId now1) s)
  < Course.maxStudents course ->
  let s1 := state_after (registerForCourse studentId courseId now1) s in
  let s2 := state_after (registerForCourse studentId courseId now2) s1 in
  result_of (registerForCourse studentId courseId now2) s1 = Return tt
  /\ grades s2
     = grades s ++ [registration studentId courseId now1 course;
                    registration studentId courseId now2 course]
  /\ registrations courseId s2 = registrations courseId s + 2
  /\ students s2 = students s
  /\ courses s2 = courses s.
Proof.
  intros Hc Hs Hf H1 Hcap s1 s2.
  assert (He : eligible s course studentId) by (exists student; auto).
  assert (Hlt : registrations courseId s < Course.maxStudents course).
  { destruct (Z_lt_ge_dec (registrations courseId s)
                          (Course.maxStudents course)) as [H|H]; [exact H|].
    unfold result_of in H1.
    rewrite (registerForCourse_full _ _ now1 s course Hc He H) in H1.
    discriminate. }
  assert (E1 : s1 = set_grades
                      (grades s ++ [registration studentId courseId now1 course])
                      s).
  { unfold s1, state_after.
    now rewrite (registerForCourse_ok _ _ now1 s course Hc He Hlt). }
  fold s1 in Hcap.
  assert (Hc1 : findCourse courseId s1 = Some course)
    by (rewrite E1; exact Hc).
  assert (He1 : eligible s1 course studentId)
    by (apply (eligible_students s); [rewrite E1; reflexivity | exact He]).
  assert (E2 : registerForCourse studentId courseId now2 s1
               = (set_grades
                    (grades s1 ++ [registration studentId courseId now2 course])
                    s1, Return tt))
    by (apply registerForCourse_ok; assumption).
  unfold s2, result_of, state_after. rewrite E2. simpl.
  split; [reflexivity|].
  rewrite registrations_push. rewrite E1 at 1 2. simpl.
  rewrite registrations_push, <- app_assoc. simpl.
  repeat split; try lia; rewrite E1; reflexivity.
Qed.

(** The same student registers twice for [course1], which has two places:
    both calls pass, and the course is full afterwards. *)
Lemma registerForCourse_duplicate_witness :
  let s1 := state_after (registerForCourse 1 1 10) (campus Active []) in
  let s2 := state_after (registerForCourse 1 1 20) s1 in
  result_of (registerForCourse 1 1 20) s1 = Return tt
  /\ grades s2 = [Grade.mk 1 1 None 10 First; Grade.mk 1 1 None 20 First]
  /\ registrations 1 s2 = 2
  /\ students s2 = students (campus Active [])
  /\ courses s2 = courses (campus Active []).
Proof.
  apply (registerForCourse_duplicate (campus Active []) 1 1 10 20 course1
           (oneStudent Computer_Science Active));
    reflexivity.
Defined.

Lemma findStudent_variant (studentId : Z) (l l' : list Student.t) :
  Forall2 sameButStatus l l' ->
  match find (fun st => Student.id st =? studentId) l,
        find (fun st => Student.id st =? studentId) l' with
  | Some a, Some b => sameButStatus a b
  | None, None => True
  | _, _ => False
  end.
Proof.
  induction 1 as [|a b l l' Hab Hl IH]; simpl; [exact I|].
  destruct Hab as (Hid & Hrest). rewrite <- Hid.
  destruct (Student.id a =? studentId); [|exact IH].
  split; assumption.
Qed.

Lemma statusVariant_set_grades (s s' : UMS) (gs : list Grade.t) :
  statusVariant s s' -> statusVariant (set_grades gs s) (set_grades gs s').
Proof.
  intros (Hst & Hco & Hgr & Hn & Hn'). repeat split; assumption.
Qed.

(** C10. Neither [registerForCourse] nor [setGrade] reads a status field.
    On two states that differ at most in the statuses of their students,
    each of the two methods gives the same result and leaves states that
    again differ at most in those statuses.  Registration succeeds as soon
    as both ids exist, the faculties agree and a place is left; grading
    succeeds as soon as a record for the pair exists: no condition on the
    status of the student is needed. *)
Theorem status_not_consulted (s s' : UMS) :
  statusVariant s s' ->
  (forall studentId courseId now,
      result_of (registerForCourse studentId courseId now) s
      = result_of (registerForCourse studentId courseId now) s'
      /\ statusVariant
           (state_after (registerForCourse studentId courseId now) s)
           (state_after (registerForCourse studentId courseId now) s'))
  /\ (forall studentId courseId grade now,
         result_of (setGrade studentId courseId grade now) s
         = result_of (setGrade studentId courseId grade now) s'
         /\ statusVariant
              (state_after (setGrade studentId courseId grade now) s)
              (state_after (setGrade studentId courseId grade now) s'))
  /\ (forall studentId courseId now course student,
         findCourse courseId s = Some course ->
         findStudent studentId s = Some student ->
         Course.faculty course = Student.faculty student ->
         registrations courseId s < Course.maxStudents course ->
         result_of (registerForCourse studentId courseId now) s = Return tt
         /\ result_of (registerForCourse studentId courseId now) s'
            = Return tt)
  /\ (forall studentId courseId grade now r,
         In r (grades s) ->
         Grade.studentId r = studentId -> Grade.courseId r = courseId ->
         result_of (setGrade studentId courseId grade now) s = Return tt
         /\ result_of (setGrade studentId courseId grade now) s'
            = Return tt).
Proof.
  intros Hv.
  assert (Hreg : forall studentId courseId now,
      result_of (registerForCourse studentId courseId now) s
      = result_of (registerForCourse studentId courseId now) s'
      /\ statusVariant
           (state_after (registerForCourse studentId courseId now) s)
           (state_after (registerForCourse studentId courseId now) s')).
  { intros studentId courseId now. unfold result_of, state_after.
    rewrite !registerForCourse_cases.
    pose proof Hv as (Hst & Hco & Hgr & _).
    pose proof (findStudent_variant studentId _ _ Hst) as Hfind.
    unfold findCourse, findStudent, registrations.
    rewrite <- Hco, <- Hgr.
    destruct (find _ (courses s)) as [course|]; [|split; trivial].
    destruct (find _ (students s)) as [a|],
             (find _ (students s')) as [b|]; try contradiction;
      [|split; trivial].
    destruct Hfind as (_ & _ & <- & _).
    destruct (negb _); [split; trivial|].
    destruct (_ >=? _); [split; trivial|].
    simpl. split; [reflexivity|].
    now apply statusVariant_set_grades. }
  assert (Hset : forall studentId courseId grade now,
      result_of (setGrade studentId courseId grade now) s
      = result_of (setGrade studentId courseId grade now) s'
      /\ statusVariant
           (state_after (setGrade studentId courseId grade now) s)
           (state_after (setGrade studentId courseId grade now) s')).
  { intros studentId courseId grade now. unfold result_of, state_after.
    rewrite !setGrade_cases.
    pose proof Hv as (_ & _ & Hgr & _). rewrite <- Hgr.
    destruct (find _ (grades s)); simpl; [|split; trivial].
    split; [reflexivity|]. now apply statusVariant_set_grades. }
  split; [exact Hreg|]. split; [exact Hset|]. split.
  - intros studentId courseId now course student Hc Hs Hf Hlt.
    assert (H : result_of (registerForCourse studentId courseId now) s
                = Return tt).
    { unfold result_of.
      rewrite (registerForCourse_ok studentId courseId now s course); trivial.
      exists student. auto. }
    split; [exact H|]. rewrite <- (proj1 (Hreg studentId courseId now)).
    exact H.
  - intros studentId courseId grade now r Hin Hs Hc.
    assert (H : result_of (setGrade studentId courseId grade now) s
                = Return tt).
    { unfold result_of. rewrite setGrade_cases.
      destruct (find _ (grades s)) eqn:E; [reflexivity|].
      pose proof (proj1 (find_none_iff _ _) E r Hin) as Hr.
      apply isRegistration_false in Hr. tauto. }
    split; [exact H|]. rewrite <- (proj1 (Hset studentId courseId grade now)).
    exact H.
Qed.

(** An expelled student is registered and graded like an active one. *)
Lemma status_not_consulted_witness :
  result_of (registerForCourse 1 1 10) (campus Expelled []) = Return tt
  /\ result_of (registerForCourse 1 1 10) (campus Active [])
     = result_of (registerForCourse 1 1 10) (campus Expelled [])
  /\ result_of (setGrade 1 1 Good 20)
               (campus Expelled [Grade.mk 1 1 None 10 First])
     = Return tt.
Proof.
  assert (Hv : forall gs, statusVariant (campus Active gs) (campus Expelled gs)).
  { intros gs. repeat split. constructor; [|constructor].
    repeat split. }
  split; [|split].
  - apply (proj1 (proj2 (proj2 (status_not_consulted _ _ (Hv []))))
             1 1 10 course1 (oneStudent Computer_Science Active));
      [reflexivity | reflexivity | reflexivity | reflexivity].
  - apply (proj1 (status_not_consulted _ _ (Hv []))).
  - apply (proj2 (proj2 (proj2 (status_not_consulted _ _
                    (Hv [Grade.mk 1 1 None 10 First]))))
             1 1 Good 20 (Grade.mk 1 1 None 10 First));
      [left; reflexivity | reflexivity | reflexivity].
Defined.

(** ** The script of the source, run *)

Example script_runs :
  let s := state_after script init in
  result_of script init = Return tt
  /\ calculateAverageGrade s 1 = Finite 5
  /\ calculateAverageGrade s 2 = Finite 4
  /\ getTopStudentsByFaculty s Computer_Science
     = [Student.set_status Graduated (withId 1 ivan)]
  /\ getTopStudentsByFaculty s Economics = [withId 2 maria].
Proof. vm_compute. repeat split. Qed.

(** ** Further properties: lookups that fail *)

Lemma find_app_some {A : Type} (p : A -> bool) (l l' : list A) (x : A) :
  find p l = Some x -> find p (l ++ l') = Some x.
Proof.
  induction l as [|a l IH]; simpl; [discriminate|].
  destruct (p a); [trivial | exact IH].
Qed.

Lemma find_app_none {A : Type} (p : A -> bool) (l l' : list A) :
  find p l = None -> find p (l ++ l') = find p l'.
Proof.
  induction l as [|a l IH]; simpl; [trivial|].
  destruct (p a); [discriminate | exact IH].
Qed.

Lemma findCourse_none (courseId : Z) (s : UMS) :
  findCourse courseId s = None
  <-> forall c, In c (courses s) -> Course.id c <> courseId.
Proof.
  unfold findCourse. rewrite find_none_iff. split; intros H c Hc.
  - apply Z.eqb_neq. now apply H.
  - apply Z.eqb_neq. now apply H.
Qed.

Lemma findStudent_none (studentId : Z) (s : UMS) :
  findStudent studentId s = None
  <-> forall st, In st (students s) -> Student.id st <> studentId.
Proof.
  unfold findStudent. rewrite find_none_iff. split; intros H st Hst.
  - apply Z.eqb_neq. now apply H.
  - apply Z.eqb_neq. now apply H.
Qed.

(** X1. [registerForCourse] throws its invalid-id error exactly when no stored
    course has the course id or no stored student has the student id; the
    faculties and the capacity play no part in it. *)
Theorem registerForCourse_invalid_ids
        (s : UMS) (studentId courseId : Z) (now : Date) :
  result_of (registerForCourse studentId courseId now) s
  = Throw InvalidStudentOrCourse
  <-> (forall c, In c (courses s) -> Course.id c <> courseId)
      \/ (forall st, In st (students s) -> Student.id st <> studentId).
Proof.
  rewrite <- findCourse_none, <- findStudent_none.
  unfold result_of. rewrite registerForCourse_cases.
  destruct (findCourse courseId s) as [course|].
  - destruct (findStudent studentId s) as [student|].
    + destruct (negb _); [|destruct (_ >=? _)]; simpl;
        (split; [discriminate | intros [H|H]; discriminate]).
    + simpl. split; auto.
  - simpl. split; auto.
Qed.

Lemma registerForCourse_invalid_ids_witness :
  result_of (registerForCourse 1 3 30) (campus Active [])
  = Throw InvalidStudentOrCourse
  /\ result_of (registerForCourse 2 1 30) (campus Active [])
     = Throw InvalidStudentOrCourse.
Proof.
  split.
  - apply (proj2 (registerForCourse_invalid_ids (campus Active []) 1 3 30)).
    left. intros c [<-|[<-|[]]]; discriminate.
  - apply (proj2 (registerForCourse_invalid_ids (campus Active []) 2 1 30)).
    right. intros st [<-|[]]; discriminate.
Defined.

(** X2. [updateStudentStatus] throws its invalid-id error exactly when no
    stored student has the id, whatever the new status is. *)
Theorem updateStudentStatus_invalid_id
        (s : UMS) (studentId : Z) (newStatus : StudentStatus) :
  result_of (updateStudentStatus studentId newStatus) s = Throw InvalidStudent
  <-> forall st, In st (students s) -> Student.id st <> studentId.
Proof.
  rewrite <- findStudent_none.
  unfold result_of. rewrite updateStudentStatus_cases.
  destruct (findStudent studentId s) as [student|]; simpl.
  - destruct (_ && _); simpl; split; discriminate.
  - split; auto.
Qed.

Lemma updateStudentStatus_invalid_id_witness :
  result_of (updateStudentStatus 5 Graduated) (campus Active [])
  = Throw InvalidStudent.
Proof.
  apply (proj2 (updateStudentStatus_invalid_id (campus Active []) 5 Graduated)).
  intros st [<-|[]]; discriminate.
Defined.

(** ** Further properties: what a call changes *)

Lemma update_first_map {A B : Type} (p : A -> bool) (f : A -> A) (g : A -> B)
      (l : list A) :
  (forall x, g (f x) = g x) -> map g (update_first p f l) = map g l.
Proof.
  intros Hg. induction l as [|a l IH]; simpl; [reflexivity|].
  destruct (p a); simpl; [now rewrite Hg | now rewrite IH].
Qed.

Lemma update_first_length {A : Type} (p : A -> bool) (f : A -> A) (l : list A) :
  length (update_first p f l) = length l.
Proof.
  rewrite <- (length_map (fun _ => tt)), update_first_map by reflexivity.
  apply length_map.
Qed.

Lemma update_first_filter_length {A : Type} (p q : A -> bool) (f : A -> A)
      (l : list A) :
  (forall x, q (f x) = q x) ->
  length (filter q (update_first p f l)) = length (filter q l).
Proof.
  intros Hq. induction l as [|a l IH]; simpl; [reflexivity|].
  destruct (p a); simpl.
  - rewrite Hq. destruct (q a); reflexivity.
  - destruct (q a); simpl; now rewrite IH.
Qed.

(** A lookup after the mutation of a found object, for a test [q] that the
    mutation does not change: the same object, possibly mutated. *)
Lemma find_update_first_other {A : Type} (p q : A -> bool) (f : A -> A)
      (l : list A) :
  (forall x, q (f x) = q x) ->
  match find q l with
  | None => find q (update_first p f l) = None
  | Some y => find q (update_first p f l) = Some y
              \/ find q (update_first p f l) = Some (f y)
  end.
Proof.
  intros Hq. induction l as [|a l IH]; simpl; [reflexivity|].
  destruct (p a) eqn:Hp; simpl.
  - rewrite Hq. destruct (q a); [now right|].
    destruct (find q l); auto.
  - destruct (q a); [now left | exact IH].
Qed.

(** The state after each call, field by field. *)
Lemma perform_frame (c : Call) (s : UMS) :
  courses (state_after (perform c) s) = courses s
  /\ nextCourseId (state_after (perform c) s) = nextCourseId s
  /\ nextStudentId s <= nextStudentId (state_after (perform c) s)
  /\ (forall i, In i (map Student.id (students s)) ->
                In i (map Student.id (students (state_after (perform c) s)))).
Proof.
  unfold state_after. destruct c as [d|sid cid now|sid cid g now|sid v];
    cbn [perform].
  - unfold bind. rewrite enrollStudent_run. simpl.
    repeat split; try lia. intros i Hi. rewrite map_app, in_app_iff. now left.
  - rewrite registerForCourse_cases.
    destruct (findCourse cid s); [|simpl; repeat split; trivial; lia].
    destruct (findStudent sid s); [|simpl; repeat split; trivial; lia].
    destruct (negb _); [simpl; repeat split; trivial; lia|].
    destruct (_ >=? _); simpl; repeat split; trivial; lia.
  - rewrite setGrade_cases.
    destruct (find _ _); simpl; repeat split; trivial; lia.
  - rewrite updateStudentStatus_cases.
    destruct (findStudent sid s); [|simpl; repeat split; trivial; lia].
    destruct (_ && _); simpl; repeat split; trivial; try lia.
    intros i Hi. now rewrite update_first_map by reflexivity.
Qed.

Lemma performAll_courses (cs : list Call) :
  forall s, courses (performAll cs s) = courses s
            /\ nextCourseId (performAll cs s) = nextCourseId s.
Proof.
  induction cs as [|c cs IH]; intros s; simpl; [auto|].
  destruct (IH (state_after (perform c) s)) as [-> ->].
  destruct (perform_frame c s) as (-> & -> & _). auto.
Qed.

Lemma performAll_no_course (cs : list Call) :
  forall s, courses s = [] -> grades s = [] -> grades (performAll cs s) = [].
Proof.
  induction cs as [|c cs IH]; intros s Hc Hg; simpl; [exact Hg|].
  apply IH.
  - now rewrite (proj1 (perform_frame c s)).
  - unfold state_after.
    destruct c as [d|sid cid now|sid cid g now|sid v]; cbn [perform].
    + unfold bind. rewrite enrollStudent_run. exact Hg.
    + rewrite registerForCourse_cases. unfold findCourse. rewrite Hc.
      exact Hg.
    + rewrite setGrade_cases, Hg. exact Hg.
    + rewrite updateStudentStatus_cases.
      destruct (findStudent sid s); [|exact Hg].
      destruct (_ && _); exact Hg.
Qed.

(** X3. No method adds, removes or changes a course, and none touches the
    course counter.  Hence on a fresh instance that is driven through the
    methods alone, every [registerForCourse] throws the invalid-id error
    and the grade list stays empty. *)
Theorem methods_never_add_courses (cs : list Call) (s : UMS) :
  courses (performAll cs s) = courses s
  /\ nextCourseId (performAll cs s) = nextCourseId s
  /\ grades (performAll cs init) = []
  /\ forall studentId courseId now,
      registerForCourse studentId courseId now (performAll cs init)
      = (performAll cs init, Throw InvalidStudentOrCourse).
Proof.
  destruct (performAll_courses cs s) as [Hc Hn].
  repeat split; trivial.
  - now apply performAll_no_course.
  - intros studentId courseId now. rewrite registerForCourse_cases.
    unfold findCourse. rewrite (proj1 (performAll_courses cs init)).
    reflexivity.
Qed.

(** ** Further properties: invariants of the methods *)

Lemma registrations_append (s : UMS) (g : Grade.t) (courseId : Z) :
  registrations courseId (set_grades (grades s ++ [g]) s)
  = registrations courseId s
    + (if Grade.courseId g =? courseId then 1 else 0).
Proof.
  unfold registrations. simpl. rewrite filter_app, length_app. simpl.
  destruct (Grade.courseId g =? courseId); simpl; lia.
Qed.

Lemma registrations_setGrade (s : UMS) (studentId courseId c : Z)
      (grade : GradeEnum) (now : Date) :
  registrations c (state_after (setGrade studentId courseId grade now) s)
  = registrations c s.
Proof.
  unfold state_after. rewrite setGrade_cases.
  destruct (find _ (grades s)); [|reflexivity].
  unfold registrations. simpl.
  now rewrite update_first_filter_length by reflexivity.
Qed.

Lemma withinCapacity_perform (c : Call) (s : UMS) :
  withinCapacity s -> withinCapacity (state_after (perform c) s).
Proof.
  intros Inv courseId course. unfold findCourse.
  rewrite (proj1 (perform_frame c s)). intros Hc.
  specialize (Inv courseId course Hc). revert Inv.
  destruct c as [d|sid cid now|sid cid g now|sid v]; cbn [perform].
  - unfold state_after, bind. rewrite enrollStudent_run. trivial.
  - unfold state_after. rewrite registerForCourse_cases.
    destruct (findCourse cid s) as [course'|] eqn:Hc'; [|trivial].
    destruct (findStudent sid s); [|trivial].
    destruct (negb _); [trivial|].
    destruct (_ >=? _) eqn:Hfull; [trivial|]. simpl fst.
    rewrite registrations_append. simpl.
    destruct (cid =? courseId) eqn:E; [|lia].
    apply Z.eqb_eq in E. subst cid.
    unfold findCourse in Hc'. rewrite Hc in Hc'. injection Hc' as <-.
    rewrite Z.geb_leb in Hfull. apply Z.leb_gt in Hfull. lia.
  - now rewrite registrations_setGrade.
  - unfold state_after. rewrite updateStudentStatus_cases.
    destruct (findStudent sid s); [|trivial].
    destruct (_ && _); trivial.
Qed.

Lemma wellNumbered_perform (c : Call) (s : UMS) :
  wellNumbered s -> wellNumbered (state_after (perform c) s).
Proof.
  unfold wellNumbered. intros [Hnd Hlt].
  destruct c as [d|sid cid now|sid cid g now|sid v]; cbn [perform];
    unfold state_after.
  - unfold bind. rewrite enrollStudent_run. simpl.
    rewrite map_app. simpl. split.
    + apply NoDup_app; [exact Hnd | repeat constructor; intros [] |].
      intros i Hin [<-|[]]. apply in_map_iff in Hin.
      destruct Hin as (st & Hid & Hst).
      rewrite Forall_forall in Hlt. specialize (Hlt st Hst). lia.
    + apply Forall_app. split.
      * eapply Forall_impl; [|exact Hlt]. simpl. intros; lia.
      * constructor; [simpl; lia|constructor].
  - rewrite registerForCourse_cases.
    destruct (findCourse cid s); [|auto].
    destruct (findStudent sid s); [|auto].
    destruct (negb _); [auto|].
    destruct (_ >=? _); auto.
  - rewrite setGrade_cases. destruct (find _ _); auto.
  - rewrite updateStudentStatus_cases.
    destruct (findStudent sid s); [|auto].
    destruct (_ && _); [auto|]. simpl.
    rewrite update_first_map by reflexivity. split; [exact Hnd|].
    rewrite <- (Forall_map Student.id (fun i => i < nextStudentId s)).
    rewrite update_first_map by reflexivity.
    now rewrite Forall_map.
Qed.

(** X5. Student ids stay unique: starting from a state whose student ids are
    pairwise distinct and below the counter (a fresh instance is one), any
    sequence of method calls leads to such a state again. *)
Theorem student_ids_stay_unique (cs : list Call) (s : UMS) :
  wellNumbered init
  /\ (wellNumbered s -> wellNumbered (performAll cs s)).
Proof.
  split.
  - split; constructor.
  - revert s. induction cs as [|c cs IH]; intros s Inv; simpl; [exact Inv|].
    apply IH. now apply wellNumbered_perform.
Qed.

Lemma wellNumbered_init : wellNumbered init.
Proof. split; constructor. Defined.

Lemma student_ids_stay_unique_witness :
  wellNumbered
    (performAll [EnrollStudent ivan; UpdateStudentStatus 1 Expelled;
                 EnrollStudent maria] init).
Proof.
  apply (proj2 (student_ids_stay_unique _ init) wellNumbered_init).
Defined.

Lemma Forall_update_first {A : Type} (P : A -> Prop) (p : A -> bool)
      (f : A -> A) (l : list A) :
  (forall x, P x -> P (f x)) -> Forall P l -> Forall P (update_first p f l).
Proof.
  intros Hf. induction 1 as [|a l Ha Hl IH]; simpl; [constructor|].
  destruct (p a); constructor; auto.
Qed.

(** The property of one grade record that [wellReferenced] asks for only
    depends on the lookups it makes. *)
Lemma wellReferenced_transfer (s s' : UMS) :
  courses s' = courses s ->
  (forall i st, findStudent i s = Some st ->
                exists st', findStudent i s' = Some st'
                            /\ Student.faculty st' = Student.faculty st) ->
  Forall
    (fun g =>
       exists student course,
         findStudent (Grade.studentId g) s = Some student
         /\ findCourse (Grade.courseId g) s = Some course
         /\ Course.faculty course = Student.faculty student
         /\ Grade.semester g = Course.semester course)
    (grades s) ->
  Forall
    (fun g =>
       exists student course,
         findStudent (Grade.studentId g) s' = Some student
         /\ findCourse (Grade.courseId g) s' = Some course
         /\ Course.faculty course = Student.faculty student
         /\ Grade.semester g = Course.semester course)
    (grades s).
Proof.
  intros Hc Hs. apply Forall_impl.
  intros g (student & course & H1 & H2 & H3 & H4).
  destruct (Hs _ _ H1) as (st' & Hst' & Hf).
  exists st', course. unfold findCourse in *. rewrite Hc, Hf. auto.
Qed.

Lemma wellReferenced_perform (c : Call) (s : UMS) :
  wellReferenced s -> wellReferenced (state_after (perform c) s).
Proof.
  unfold wellReferenced. intros Inv.
  destruct c as [d|sid cid now|sid cid g now|sid v]; cbn [perform];
    unfold state_after.
  - unfold bind. rewrite enrollStudent_run. simpl fst.
    apply (wellReferenced_transfer s); [reflexivity| |exact Inv].
    intros i st Hi. exists st. split; [|reflexivity].
    unfold findStudent in *. simpl. now apply find_app_some.
  - rewrite registerForCourse_cases.
    destruct (findCourse cid s) as [course|] eqn:Hc; [|exact Inv].
    destruct (findStudent sid s) as [student|] eqn:Hs; [|exact Inv].
    destruct (negb _) eqn:Hf; [exact Inv|].
    destruct (_ >=? _); [exact Inv|]. simpl fst. simpl grades.
    apply Forall_app. split; [exact Inv|].
    constructor; [|constructor].
    exists student, course. simpl. repeat split; trivial.
    apply negb_false_iff in Hf. now apply Faculty_eqb_eq.
  - rewrite setGrade_cases.
    destruct (find _ (grades s)); [|exact Inv]. simpl fst. simpl grades.
    apply Forall_update_first; [|exact Inv].
    intros x Hx. exact Hx.
  - rewrite updateStudentStatus_cases.
    destruct (findStudent sid s) as [student|]; [|exact Inv].
    destruct (_ && _); [exact Inv|]. simpl fst.
    apply (wellReferenced_transfer s); [reflexivity| |exact Inv].
    intros i st Hi. unfold findStudent in *. simpl students.
    pose proof (find_update_first_other
                  (fun st0 => Student.id st0 =? sid)
                  (fun st0 => Student.id st0 =? i)
                  (Student.set_status v) (students s)
                  (fun x => eq_refl)) as H.
    rewrite Hi in H. destruct H as [H|H]; rewrite H; eauto.
Qed.

(** X6. References stay valid: if every grade record refers to a stored
    student and a stored course of one faculty and carries the semester of
    that course, this is still so after any sequence of method calls. *)
Theorem grade_references_stay_valid (cs : list Call) (s : UMS) :
  wellReferenced s -> wellReferenced (performAll cs s).
Proof.
  revert s. induction cs as [|c cs IH]; intros s Inv; simpl; [exact Inv|].
  apply IH. now apply wellReferenced_perform.
Qed.

Lemma wellReferenced_campus : wellReferenced (campus Active []).
Proof. constructor. Defined.

Lemma grade_references_stay_valid_witness :
  wellReferenced
    (performAll [RegisterForCourse 1 1 10; SetGrade 1 1 Good 20;
                 UpdateStudentStatus 1 Expelled; EnrollStudent maria]
       (campus Active [])).
Proof.
  apply (grade_references_stay_valid _ (campus Active [])
           wellReferenced_campus).
Defined.

(** ** Further properties: enrolment and lookup *)

Lemma findStudent_fresh (s : UMS) :
  wellNumbered s -> findStudent (nextStudentId s) s = None.
Proof.
  intros [_ Hlt]. apply findStudent_none. intros st Hst.
  rewrite Forall_forall in Hlt. specialize (Hlt st Hst). lia.
Qed.

(** X7. Enrolment and lookup: in a state whose student ids are below the
    counter, the student returned by [enrollStudent] is the one a lookup
    of its id finds afterwards, and every lookup that found a student
    before still finds the same student. *)
Theorem enrollStudent_then_lookup (s : UMS) (student : StudentWithoutId.t) :
  wellNumbered s ->
  exists st,
    result_of (enrollStudent student) s = Return st
    /\ findStudent (Student.id st) (state_after (enrollStudent student) s)
       = Some st
    /\ forall i st0,
        findStudent i s = Some st0 ->
        findStudent i (state_after (enrollStudent student) s) = Some st0.
Proof.
  intros Inv. exists (withId (nextStudentId s) student).
  unfold result_of, state_after. rewrite enrollStudent_run. simpl.
  split; [reflexivity|]. split.
  - pose proof (findStudent_fresh s Inv) as H. unfold findStudent in *.
    simpl. rewrite find_app_none by exact H. simpl.
    now rewrite Z.eqb_refl.
  - intros i st0 H. unfold findStudent in *. simpl.
    now apply find_app_some.
Qed.

Lemma enrollStudent_then_lookup_witness :
  exists st,
    result_of (enrollStudent maria) init = Return st
    /\ findStudent (Student.id st) (state_after (enrollStudent maria) init)
       = Some st
    /\ forall i st0,
        findStudent i init = Some st0 ->
        findStudent i (state_after (enrollStudent maria) init) = Some st0.
Proof.
  apply (enrollStudent_then_lookup init maria wellNumbered_init).
Defined.

Lemma gradeValues_unreferenced (s : UMS) (studentId : Z) :
  (forall g, In g (grades s) -> Grade.studentId g <> studentId) ->
  gradeValues s studentId = [].
Proof.
  unfold gradeValues. induction (grades s) as [|g l IH]; intros H; simpl;
    [reflexivity|].
  replace (Grade.studentId g =? studentId) with false.
  - apply IH. intros g' Hg'. apply H. now right.
  - symmetry. apply Z.eqb_neq. apply H. now left.
Qed.

Lemma getStudentGrades_unreferenced (s : UMS) (studentId : Z) :
  (forall g, In g (grades s) -> Grade.studentId g <> studentId) ->
  getStudentGrades s studentId = [].
Proof.
  unfold getStudentGrades. induction (grades s) as [|g l IH]; intros H;
    [reflexivity|].
  cbn [filter]. replace (Grade.studentId g =? studentId) with false.
  - apply IH. intros g' Hg'. apply H. now right.
  - symmetry. apply Z.eqb_neq. apply H. now left.
Qed.

(** X8. A newly enrolled student starts without grades: in a state with
    unique ids below the counter and valid references, the student that
    [enrollStudent] returns has no grade records, average 0, and is not
    among the top students of any faculty. *)
Theorem enrollStudent_starts_ungraded
        (s : UMS) (student : StudentWithoutId.t) (faculty : Faculty) :
  wellNumbered s -> wellReferenced s ->
  let s' := state_after (enrollStudent student) s in
  let st := withId (nextStudentId s) student in
  result_of (enrollStudent student) s = Return st
  /\ getStudentGrades s' (Student.id st) = []
  /\ calculateAverageGrade s' (Student.id st) = Finite 0
  /\ ~ In st (getTopStudentsByFaculty s' faculty).
Proof.
  intros Hn Hr s' st.
  assert (Hnone : forall g, In g (grades s') ->
                            Grade.studentId g <> Student.id st).
  { intros g Hg Heq. unfold s', state_after in Hg.
    rewrite enrollStudent_run in Hg. simpl in Hg.
    unfold wellReferenced in Hr. rewrite Forall_forall in Hr.
    destruct (Hr g Hg) as (x & _ & Hx & _).
    simpl in Heq. rewrite Heq, findStudent_fresh in Hx by exact Hn.
    discriminate. }
  assert (Havg : calculateAverageGrade s' (Student.id st) = Finite 0).
  { rewrite calculateAverageGrade_eq, gradeValues_unreferenced; trivial. }
  split; [reflexivity|]. split; [|split; [exact Havg|]].
  - now apply getStudentGrades_unreferenced.
  - unfold getTopStudentsByFaculty. rewrite filter_In.
    intros [_ H]. cbv beta zeta in H. rewrite Havg in H. discriminate.
Qed.

Lemma enrollStudent_starts_ungraded_witness :
  calculateAverageGrade
    (state_after (enrollStudent maria)
                 (campus Active [Grade.mk 1 1 (Some Good) 10 First]))
    2
  = Finite 0.
Proof.
  refine (proj1 (proj2 (proj2
            (enrollStudent_starts_ungraded
               (campus Active [Grade.mk 1 1 (Some Good) 10 First])
               maria Economics _ _)))).
  - split.
    + repeat constructor. intros [].
    + repeat constructor.
  - constructor; [|constructor].
    exists (oneStudent Computer_Science Active), course1.
    repeat split.
Defined.

(** ** Further properties: registration, grading and the queries *)

Lemma Semester_eqb_refl (a : Semester) : Semester_eqb a a = true.
Proof. destruct a; reflexivity. Qed.

(** A call of [registerForCourse] that returns, taken apart. *)
Lemma registerForCourse_returns (s : UMS) (studentId courseId : Z) (now : Date) :
  result_of (registerForCourse studentId courseId now) s = Return tt ->
  exists course student,
    findCourse courseId s = Some course
    /\ findStudent studentId s = Some student
    /\ Course.faculty course = Student.faculty student
    /\ registrations courseId s < Course.maxStudents course
    /\ state_after (registerForCourse studentId courseId now) s
       = set_grades
           (grades s ++ [registration studentId courseId now course]) s.
Proof.
  unfold result_of, state_after. rewrite registerForCourse_cases.
  destruct (findCourse courseId s) as [course|]; [|discriminate].
  destruct (findStudent studentId s) as [student|]; [|discriminate].
  destruct (negb _) eqn:Hf; [discriminate|].
  destruct (_ >=? _) eqn:Hfull; [discriminate|]. intros _.
  exists course, student. repeat split; trivial.
  - apply negb_false_iff in Hf. now apply Faculty_eqb_eq.
  - rewrite Z.geb_leb in Hfull. now apply Z.leb_gt.
Qed.

(** X9. A registration that is accepted is for a course that
    [getAvailableCourses] lists for the faculty of the student (in the
    semester of the course), and it adds one record, without a grade, at
    the end of what [getStudentGrades] gives for the student. *)
Theorem registration_is_for_available_course
        (s : UMS) (studentId courseId : Z) (now : Date) :
  result_of (registerForCourse studentId courseId now) s = Return tt ->
  exists course student,
    findStudent studentId s = Some student
    /\ Course.id course = courseId
    /\ In course
          (getAvailableCourses s (Student.faculty student)
             (Course.semester course))
    /\ getStudentGrades
         (state_after (registerForCourse studentId courseId now) s) studentId
       = getStudentGrades s studentId
         ++ [Grade.mk studentId courseId None now (Course.semester course)].
Proof.
  intros H. destruct (registerForCourse_returns _ _ _ _ H)
    as (course & student & Hc & Hs & Hf & _ & ->).
  exists course, student. unfold findCourse in Hc.
  apply find_some in Hc. destruct Hc as [Hin Hid]. apply Z.eqb_eq in Hid.
  repeat split; trivial.
  - unfold getAvailableCourses. apply filter_In. split; [exact Hin|].
    rewrite Semester_eqb_refl, andb_true_r. now apply Faculty_eqb_eq.
  - unfold getStudentGrades. simpl. rewrite filter_app. simpl.
    now rewrite Z.eqb_refl.
Qed.

Lemma registration_is_for_available_course_witness :
  exists course student,
    findStudent 1 (campus Active []) = Some student
    /\ Course.id course = 1
    /\ In course
          (getAvailableCourses (campus Active []) (Student.faculty student)
             (Course.semester course))
    /\ getStudentGrades
         (state_after (registerForCourse 1 1 10) (campus Active [])) 1
       = getStudentGrades (campus Active []) 1
         ++ [Grade.mk 1 1 None 10 (Course.semester course)].
Proof.
  apply (registration_is_for_available_course (campus Active []) 1 1 10).
  reflexivity.
Defined.

(** X10. Registration, then grading: after a [registerForCourse] that returned,
    [setGrade] for the same pair never throws, whatever the grade. *)
Theorem setGrade_after_registration
        (s : UMS) (studentId courseId : Z) (now now' : Date)
        (grade : GradeEnum) :
  result_of (registerForCourse studentId courseId now) s = Return tt ->
  result_of (setGrade studentId courseId grade now')
            (state_after (registerForCourse studentId courseId now) s)
  = Return tt.
Proof.
  intros H. destruct (registerForCourse_returns _ _ _ _ H)
    as (course & student & _ & _ & _ & _ & ->).
  unfold result_of. rewrite setGrade_cases. simpl grades.
  destruct (find _ _) eqn:E; [reflexivity|]. exfalso.
  pose proof (proj1 (find_none_iff _ _) E
                (registration studentId courseId now course)) as Hn.
  rewrite in_app_iff in Hn. specialize (Hn (or_intror (or_introl eq_refl))).
  unfold isRegistration, registration in Hn. simpl in Hn.
  now rewrite !Z.eqb_refl in Hn.
Qed.

Lemma setGrade_after_registration_witness :
  result_of (setGrade 1 1 Satisfactory 20)
            (state_after (registerForCourse 1 1 10) (campus Active []))
  = Return tt.
Proof.
  apply (setGrade_after_registration (campus Active []) 1 1 10 20
           Satisfactory).
  reflexivity.
Defined.

(** The average and the marks behind it only depend on the grade list. *)
Lemma calculateAverageGrade_grades (s s' : UMS) (studentId : Z) :
  grades s' = grades s ->
  calculateAverageGrade s' studentId = calculateAverageGrade s studentId.
Proof.
  intros E. unfold calculateAverageGrade, gradedRecords. now rewrite E.
Qed.

Lemma gradeValues_push_ungraded (s : UMS) (g : Grade.t) (studentId : Z) :
  Grade.grade g = None ->
  gradeValues (set_grades (grades s ++ [g]) s) studentId
  = gradeValues s studentId.
Proof.
  intros Hg. unfold gradeValues. simpl. rewrite flat_map_app. simpl.
  rewrite Hg. destruct (_ =? _); now rewrite !app_nil_r.
Qed.

Lemma getTopStudentsByFaculty_ext (s s' : UMS) (faculty : Faculty) :
  students s' = students s ->
  (forall i, calculateAverageGrade s' i = calculateAverageGrade s i) ->
  getTopStudentsByFaculty s' faculty = getTopStudentsByFaculty s faculty.
Proof.
  intros Es Ea. unfold getTopStudentsByFaculty, getStudentsByFaculty.
  rewrite Es. apply filter_ext. intros st. now rewrite Ea.
Qed.

(** X11. Registering changes no average: a call of [registerForCourse], whether
    it returns or throws, leaves the average of every student and the list
    of top students of every faculty as they were. *)
Theorem registerForCourse_keeps_averages
        (s : UMS) (studentId courseId : Z) (now : Date) :
  (forall i,
      calculateAverageGrade
        (state_after (registerForCourse studentId courseId now) s) i
      = calculateAverageGrade s i)
  /\ (forall faculty,
         getTopStudentsByFaculty
           (state_after (registerForCourse studentId courseId now) s) faculty
         = getTopStudentsByFaculty s faculty).
Proof.
  assert (Ha : forall i,
      calculateAverageGrade
        (state_after (registerForCourse studentId courseId now) s) i
      = calculateAverageGrade s i).
  { intros i. unfold state_after. rewrite registerForCourse_cases.
    destruct (findCourse courseId s) as [course|]; [|reflexivity].
    destruct (findStudent studentId s); [|reflexivity].
    destruct (negb _); [reflexivity|].
    destruct (_ >=? _); [reflexivity|]. simpl fst.
    rewrite !calculateAverageGrade_eq.
    now rewrite gradeValues_push_ungraded by reflexivity. }
  split; [exact Ha|]. intros faculty.
  apply getTopStudentsByFaculty_ext; [|exact Ha].
  unfold state_after. rewrite registerForCourse_cases.
  destruct (findCourse courseId s); [|reflexivity].
  destruct (findStudent studentId s); [|reflexivity].
  destruct (negb _); [reflexivity|].
  destruct (_ >=? _); reflexivity.
Qed.

(** X12. Grading takes no place and frees none: [setGrade] leaves the number
    of records of every course, the pairs of ids of the records, the
    students and the courses as they were, so every later
    [registerForCourse] gives the result it would have given before. *)
Theorem setGrade_keeps_registrations
        (s : UMS) (studentId courseId : Z) (grade : GradeEnum) (now : Date) :
  let s' := state_after (setGrade studentId courseId grade now) s in
  map pairOf (grades s') = map pairOf (grades s)
  /\ students s' = students s
  /\ courses s' = courses s
  /\ (forall c, registrations c s' = registrations c s)
  /\ (forall a c n,
         result_of (registerForCourse a c n) s'
         = result_of (registerForCourse a c n) s).
Proof.
  intros s'.
  assert (Hst : students s' = students s /\ courses s' = courses s
                /\ map pairOf (grades s') = map pairOf (grades s)).
  { unfold s', state_after. rewrite setGrade_cases.
    destruct (find _ (grades s)); simpl; [|auto].
    now rewrite update_first_map by reflexivity. }
  destruct Hst as (Hs & Hc & Hp).
  assert (Hr : forall c, registrations c s' = registrations c s)
    by (intros c; apply registrations_setGrade).
  repeat split; trivial.
  intros a c n. unfold result_of. rewrite !registerForCourse_cases.
  unfold findCourse, findStudent. rewrite Hs, Hc, Hr.
  destruct (find _ (courses s)); [|reflexivity].
  destruct (find _ (students s)); [|reflexivity].
  destruct (negb _); [reflexivity|].
  destruct (_ >=? _); reflexivity.
Qed.

(** ** Further properties: the size of an average *)

Lemma Qle_quotient_l (k a : Z) (n : nat) :
  Qle (inject_Z k) (Qdiv (inject_Z a) (inject_Z (Z.of_nat (S n))))
  <-> k * Z.of_nat (S n) <= a.
Proof.
  cbn [Z.of_nat]. unfold Qle, Qdiv, Qmult, Qinv, inject_Z.
  cbn [Qnum Qden]. rewrite Pos.mul_1_l, !Z.mul_1_r. reflexivity.
Qed.

Lemma Qle_quotient_r (k a : Z) (n : nat) :
  Qle (Qdiv (inject_Z a) (inject_Z (Z.of_nat (S n)))) (inject_Z k)
  <-> a <= k * Z.of_nat (S n).
Proof.
  cbn [Z.of_nat]. unfold Qle, Qdiv, Qmult, Qinv, inject_Z.
  cbn [Qnum Qden]. rewrite Pos.mul_1_l, !Z.mul_1_r. reflexivity.
Qed.

Lemma gradeValue_range (g : GradeEnum) : 2 <= gradeValue g <= 5.
Proof. destruct g; simpl; lia. Qed.

Lemma gradeValues_range (s : UMS) (studentId : Z) :
  Forall (fun v => 2 <= v <= 5) (gradeValues s studentId).
Proof.
  unfold gradeValues. induction (grades s) as [|g l IH]; simpl;
    [constructor|].
  destruct (_ =? _); [|exact IH].
  destruct (Grade.grade g); [|exact IH].
  constructor; [apply gradeValue_range | exact IH].
Qed.

Lemma sumZ_range (l : list Z) :
  Forall (fun v => 2 <= v <= 5) l ->
  2 * Z.of_nat (length l) <= sumZ l <= 5 * Z.of_nat (length l).
Proof.
  induction 1 as [|v l Hv Hl IH]; [simpl; lia|].
  cbn [length sumZ fold_right]. fold (sumZ l).
  rewrite Nat2Z.inj_succ. lia.
Qed.

(** X13. An average is 0 or lies between 2 and 5: [calculateAverageGrade] gives
    0 exactly for a student without graded records, and a number from 2 to
    5 for every other student. *)
Theorem calculateAverageGrade_range (s : UMS) (studentId : Z) :
  exists q,
    calculateAverageGrade s studentId = Finite q
    /\ (gradeValues s studentId = [] -> q = 0%Q)
    /\ (gradeValues s studentId <> [] -> Qle 2 q /\ Qle q 5).
Proof.
  rewrite calculateAverageGrade_eq.
  pose proof (sumZ_range _ (gradeValues_range s studentId)) as Hsum.
  destruct (gradeValues s studentId) as [|v l].
  - exists 0%Q. repeat split; congruence.
  - eexists. split; [reflexivity|]. split; [discriminate|]. intros _.
    rewrite Qred_correct. unfold mean. cbn [length] in *.
    split.
    + apply (Qle_quotient_l 2). lia.
    + apply (Qle_quotient_r 5). lia.
Qed.

Lemma calculateAverageGrade_range_witness :
  exists q,
    calculateAverageGrade
      (gradedState [Some Unsatisfactory; Some Excellent; None]) 1 = Finite q
    /\ Qle 2 q /\ Qle q 5.
Proof.
  destruct (calculateAverageGrade_range
              (gradedState [Some Unsatisfactory; Some Excellent; None]) 1)
    as (q & Hq & _ & H).
  exists q. split; [exact Hq|]. apply H. discriminate.
Defined.

(** X14. Top students without a division: a student is returned by
    [getTopStudentsByFaculty] exactly when it is stored, belongs to the
    faculty, has a graded record, and the sum of its grades is at least
    four times their number. *)
Theorem getTopStudentsByFaculty_by_sum
        (s : UMS) (faculty : Faculty) (x : Student.t) :
  In x (getTopStudentsByFaculty s faculty)
  <-> In x (students s)
      /\ Student.faculty x = faculty
      /\ gradeValues s (Student.id x) <> []
      /\ 4 * Z.of_nat (length (gradeValues s (Student.id x)))
         <= sumZ (gradeValues s (Student.id x)).
Proof.
  unfold getTopStudentsByFaculty, getStudentsByFaculty.
  rewrite !filter_In, Faculty_eqb_eq. cbv beta zeta.
  rewrite calculateAverageGrade_eq.
  destruct (gradeValues s (Student.id x)) as [|v l] eqn:E.
  - simpl. split; [intros [_ H]; discriminate | tauto].
  - cbn [number_geb]. rewrite Qle_bool_iff, Qred_correct.
    unfold mean. cbn [length].
    change (inject_Z (gradeValue Excellent - 1)) with (inject_Z 4).
    rewrite Qle_quotient_l.
    split; [intros [[? ?] ?] | intros (? & ? & _ & ?)]; repeat split;
      trivial; discriminate.
Qed.

Lemma getTopStudentsByFaculty_by_sum_witness :
  In (oneStudent Computer_Science Active)
     (getTopStudentsByFaculty
        (gradedState [Some Excellent; Some Satisfactory]) Computer_Science).
Proof.
  apply (proj2 (getTopStudentsByFaculty_by_sum
                  (gradedState [Some Excellent; Some Satisfactory])
                  Computer_Science (oneStudent Computer_Science Active))).
  split; [left; reflexivity|]. split; [reflexivity|].
  split; [discriminate|]. vm_compute. discriminate.
Defined.

Lemma gradeValues_app (gs gs' : list Grade.t) (s : UMS) (studentId : Z) :
  gradeValues (set_grades (gs ++ gs') s) studentId
  = gradeValues (set_grades gs s) studentId
    ++ gradeValues (set_grades gs' s) studentId.
Proof. unfold gradeValues. simpl. apply flat_map_app. Qed.

(** X15. The first grade of a student is its average: when the student has no
    graded record yet and is registered for the course, the average after
    [setGrade] is the numeric value of the grade that was set. *)
Theorem first_grade_is_the_average
        (s : UMS) (studentId courseId : Z) (grade : GradeEnum) (now : Date)
        (r : Grade.t) :
  gradeValues s studentId = [] ->
  In r (grades s) ->
  Grade.studentId r = studentId -> Grade.courseId r = courseId ->
  calculateAverageGrade
    (state_after (setGrade studentId courseId grade now) s) studentId
  = Finite (inject_Z (gradeValue grade)).
Proof.
  intros Hnone Hin Hs Hc. unfold state_after. rewrite setGrade_cases.
  destruct (find _ (grades s)) as [r0|] eqn:E.
  - destruct (find_split _ (Grade.set_grade_date grade now) _ _ E)
      as (before & after & Hl & _ & Hr0 & Hu).
    simpl fst. rewrite Hu. apply isRegistration_true in Hr0.
    destruct Hr0 as [Hr0 _].
    rewrite calculateAverageGrade_eq.
    replace s with (set_grades (grades s) s) in Hnone by (now destruct s).
    rewrite Hl in Hnone.
    rewrite gradeValues_app in Hnone. apply app_eq_nil in Hnone.
    destruct Hnone as [Hb Ha].
    change (r0 :: after) with ([r0] ++ after) in Ha.
    rewrite gradeValues_app in Ha. apply app_eq_nil in Ha.
    destruct Ha as [_ Ha].
    assert (Hv : gradeValues
                   (set_grades
                      (before ++ Grade.set_grade_date grade now r0 :: after) s)
                   studentId
                 = [gradeValue grade]).
    { change (Grade.set_grade_date grade now r0 :: after)
        with ([Grade.set_grade_date grade now r0] ++ after).
      rewrite !gradeValues_app, Hb, Ha. unfold gradeValues. simpl.
      rewrite Hr0, Z.eqb_refl. reflexivity. }
    rewrite Hv. destruct grade; reflexivity.
  - exfalso. pose proof (proj1 (find_none_iff _ _) E r Hin) as H.
    apply isRegistration_false in H. tauto.
Qed.

Lemma first_grade_is_the_average_witness :
  calculateAverageGrade
    (state_after (setGrade 1 1 Good 20)
                 (campus Active [Grade.mk 1 1 None 10 First]))
    1
  = Finite 4.
Proof.
  apply (first_grade_is_the_average
           (campus Active [Grade.mk 1 1 None 10 First]) 1 1 Good 20
           (Grade.mk 1 1 None 10 First));
    [reflexivity | left; reflexivity | reflexivity | reflexivity].
Defined.

(** ** Further properties: a record behind a duplicate *)

Lemma update_first_nth_false {A : Type} (p : A -> bool) (f : A -> A)
      (l : list A) :
  forall j y, nth_error l j = Some y -> p y = false ->
              nth_error (update_first p f l) j = Some y.
Proof.
  induction l as [|a l IH]; intros [|j] y; simpl; try discriminate.
  - intros [= ->] Hy. rewrite Hy. reflexivity.
  - intros Hj Hy. destruct (p a); simpl; auto.
Qed.

Lemma update_first_nth_shadowed {A : Type} (p : A -> bool) (f : A -> A)
      (l : list A) :
  forall i j x y,
    (i < j)%nat -> nth_error l i = Some x -> nth_error l j = Some y ->
    p y = p x ->
    nth_error (update_first p f l) j = Some y.
Proof.
  induction l as [|a l IH]; intros i j x y Hij Hi Hj Hp.
  - destruct i; discriminate.
  - destruct j as [|j]; [lia|]. simpl in Hj. simpl.
    destruct (p a) eqn:Ha; simpl; [exact Hj|].
    destruct i as [|i]; simpl in Hi.
    + injection Hi as ->. apply update_first_nth_false; congruence.
    + apply (IH i j x y); trivial. lia.
Qed.

Lemma update_first_nth_any {A : Type} (p : A -> bool) (f : A -> A)
      (l : list A) :
  forall i x, nth_error l i = Some x ->
              nth_error (update_first p f l) i = Some x
              \/ nth_error (update_first p f l) i = Some (f x).
Proof.
  induction l as [|a l IH]; intros [|i] x; simpl; try discriminate.
  - intros [= ->]. destruct (p x); simpl; auto.
  - intros Hi. destruct (p a); simpl; auto.
Qed.

Lemma isRegistration_pairOf (studentId courseId : Z) (a b : Grade.t) :
  pairOf a = pairOf b ->
  isRegistration studentId courseId a = isRegistration studentId courseId b.
Proof.
  unfold pairOf, isRegistration. intros [= -> ->]. reflexivity.
Qed.

Lemma duplicate_perform (c : Call) (s : UMS) (i j : nat) (r2 : Grade.t) :
  (i < j)%nat ->
  (exists r1, nth_error (grades s) i = Some r1 /\ pairOf r1 = pairOf r2) ->
  nth_error (grades s) j = Some r2 ->
  (exists r1, nth_error (grades (state_after (perform c) s)) i = Some r1
              /\ pairOf r1 = pairOf r2)
  /\ nth_error (grades (state_after (perform c) s)) j = Some r2.
Proof.
  intros Hij (r1 & Hi & Hp) Hj.
  assert (Hsame : (exists r, nth_error (grades s) i = Some r
                             /\ pairOf r = pairOf r2)
                  /\ nth_error (grades s) j = Some r2) by eauto.
  unfold state_after.
  destruct c as [d|sid cid now|sid cid g now|sid v]; cbn [perform].
  - unfold bind. rewrite enrollStudent_run. exact Hsame.
  - rewrite registerForCourse_cases.
    destruct (findCourse cid s); [|exact Hsame].
    destruct (findStudent sid s); [|exact Hsame].
    destruct (negb _); [exact Hsame|].
    destruct (_ >=? _); [exact Hsame|]. simpl.
    rewrite !nth_error_app1 by (apply nth_error_Some; congruence).
    exact Hsame.
  - rewrite setGrade_cases.
    destruct (find _ (grades s)); [|exact Hsame]. simpl. split.
    + destruct (update_first_nth_any (isRegistration sid cid)
                  (Grade.set_grade_date g now) _ _ _ Hi) as [H|H];
        rewrite H; eauto.
    + apply (update_first_nth_shadowed _ _ _ i j r1 r2); trivial.
      now apply isRegistration_pairOf.
  - rewrite updateStudentStatus_cases.
    destruct (findStudent sid s); [|exact Hsame].
    destruct (_ && _); exact Hsame.
Qed.

(** X16. A record behind a duplicate is out of reach: when two grade records
    carry the same pair of ids, no sequence of method calls ever changes
    the later one; its grade and its date stay as they are, since
    [setGrade] always takes the earlier record. *)
Theorem later_duplicate_never_graded
        (cs : list Call) (s : UMS) (i j : nat) (r1 r2 : Grade.t) :
  (i < j)%nat ->
  nth_error (grades s) i = Some r1 ->
  nth_error (grades s) j = Some r2 ->
  pairOf r1 = pairOf r2 ->
  nth_error (grades (performAll cs s)) j = Some r2.
Proof.
  intros Hij Hi Hj Hp.
  assert (H : exists r, nth_error (grades s) i = Some r
                        /\ pairOf r = pairOf r2) by eauto.
  clear Hi Hp. revert s H Hj.
  induction cs as [|c cs IH]; intros s H Hj; simpl; [exact Hj|].
  destruct (duplicate_perform c s i j r2 Hij H Hj) as [H' Hj'].
  now apply IH.
Qed.

(** The student is registered twice for course 1 and graded twice: the
    second record still has no grade. *)
Lemma later_duplicate_never_graded_witness :
  nth_error
    (grades
       (performAll [SetGrade 1 1 Good 30; SetGrade 1 1 Excellent 40]
          (campus Active [Grade.mk 1 1 None 10 First;
                          Grade.mk 1 1 None 20 First])))
    1
  = Some (Grade.mk 1 1 None 20 First).
Proof.
  apply (later_duplicate_never_graded _ _ 0 1
           (Grade.mk 1 1 None 10 First) (Grade.mk 1 1 None 20 First));
    [lia | reflexivity | reflexivity | reflexivity].
Defined.

(** ** Further properties: status changes *)

Lemma findStudent_after_update (s : UMS) (studentId : Z)
      (v : StudentStatus) (student : Student.t) :
  findStudent studentId s = Some student ->
  findStudent studentId
    (set_students
       (update_first (fun st => Student.id st =? studentId)
          (Student.set_status v) (students s)) s)
  = Some (Student.set_status v student).
Proof.
  unfold findStudent. simpl. intros H.
  rewrite find_update_first by reflexivity. now rewrite H.
Qed.

(** X17. The guard on expelled students can be walked around: for a student
    that exists, whatever its status, a change to [Academic_Leave]
    followed by a change to any target status both return, and the lookup
    then finds the student with the target status. *)
Theorem any_status_in_two_calls
        (s : UMS) (studentId : Z) (target : StudentStatus)
        (student : Student.t) :
  findStudent studentId s = Some student ->
  let s1 := state_after (updateStudentStatus studentId Academic_Leave) s in
  let s2 := state_after (updateStudentStatus studentId target) s1 in
  result_of (updateStudentStatus studentId Academic_Leave) s = Return tt
  /\ result_of (updateStudentStatus studentId target) s1 = Return tt
  /\ findStudent studentId s2 = Some (Student.set_status target student).
Proof.
  intros Hs s1 s2.
  assert (E1 : updateStudentStatus studentId Academic_Leave s
               = (set_students
                    (update_first (fun st => Student.id st =? studentId)
                       (Student.set_status Academic_Leave) (students s)) s,
                  Return tt)).
  { rewrite updateStudentStatus_cases, Hs. simpl.
    now rewrite andb_false_r. }
  assert (Hs1 : findStudent studentId s1
                = Some (Student.set_status Academic_Leave student)).
  { unfold s1, state_after. rewrite E1. simpl fst.
    now apply findStudent_after_update. }
  assert (E2 : updateStudentStatus studentId target s1
               = (set_students
                    (update_first (fun st => Student.id st =? studentId)
                       (Student.set_status target) (students s1)) s1,
                  Return tt)).
  { rewrite updateStudentStatus_cases, Hs1. reflexivity. }
  unfold result_of. rewrite E1, E2. repeat split.
  unfold s2, state_after. rewrite E2. simpl fst.
  now rewrite (findStudent_after_update s1 studentId target _ Hs1).
Qed.

(** An expelled student becomes active again in two calls. *)
Lemma any_status_in_two_calls_witness :
  findStudent 1
    (state_after (updateStudentStatus 1 Active)
       (state_after (updateStudentStatus 1 Academic_Leave)
          (campus Expelled [])))
  = Some (oneStudent Computer_Science Active).
Proof.
  apply (proj2 (proj2 (any_status_in_two_calls (campus Expelled []) 1 Active
                         (oneStudent Computer_Science Expelled) eq_refl))).
Defined.

Lemma filter_update_first_map {A B : Type} (p q : A -> bool) (f : A -> A)
      (g : A -> B) (l : list A) :
  (forall x, q (f x) = q x) -> (forall x, g (f x) = g x) ->
  map g (filter q (update_first p f l)) = map g (filter q l).
Proof.
  intros Hq Hg. induction l as [|a l IH]; simpl; [reflexivity|].
  destruct (p a); simpl.
  - rewrite Hq. destruct (q a); simpl; [now rewrite Hg | reflexivity].
  - destruct (q a); simpl; now rewrite IH.
Qed.

Lemma filter_twice {A : Type} (q1 q2 : A -> bool) (l : list A) :
  filter q2 (filter q1 l) = filter (fun x => q1 x && q2 x) l.
Proof.
  induction l as [|a l IH]; simpl; [reflexivity|].
  destruct (q1 a); simpl; [|exact IH].
  destruct (q2 a); now rewrite IH.
Qed.

(** X18. A status change touches nothing but statuses: a call of
    [updateStudentStatus], whether it returns or throws, keeps the grade
    records, the ids and faculties of the students in their order, every
    average, and the ids listed by [getStudentsByFaculty] and
    [getTopStudentsByFaculty]; an expelled student with a high average
    stays among the top students. *)
Theorem updateStudentStatus_touches_status_only
        (s : UMS) (studentId : Z) (newStatus : StudentStatus) :
  let s' := state_after (updateStudentStatus studentId newStatus) s in
  statusVariant s' s
  /\ (forall i, calculateAverageGrade s' i = calculateAverageGrade s i)
  /\ (forall faculty,
         map Student.id (getStudentsByFaculty s' faculty)
         = map Student.id (getStudentsByFaculty s faculty))
  /\ (forall faculty,
         map Student.id (getTopStudentsByFaculty s' faculty)
         = map Student.id (getTopStudentsByFaculty s faculty)).
Proof.
  intros s'.
  assert (Hvar : forall l : list Student.t, Forall2 sameButStatus l l).
  { induction l; constructor; trivial. repeat split. }
  assert (Hupd : forall l : list Student.t,
             Forall2 sameButStatus
               (update_first (fun st => Student.id st =? studentId)
                  (Student.set_status newStatus) l) l).
  { induction l as [|a l IH]; simpl; [constructor|].
    destruct (_ =? _); constructor; trivial.
    - repeat split.
    - repeat split. }
  assert (Hcase : s' = s
                  \/ s' = set_students
                            (update_first (fun st => Student.id st =? studentId)
                               (Student.set_status newStatus) (students s)) s).
  { unfold s', state_after. rewrite updateStudentStatus_cases.
    destruct (findStudent studentId s); [|now left].
    destruct (_ && _); [now left | now right]. }
  assert (Hg : grades s' = grades s) by (destruct Hcase as [->| ->]; reflexivity).
  assert (Ha : forall i, calculateAverageGrade s' i = calculateAverageGrade s i)
    by (intros i; now apply calculateAverageGrade_grades).
  split; [|split; [exact Ha|split]].
  - destruct Hcase as [->| ->].
    + repeat split. apply Hvar.
    + repeat split. simpl. apply Hupd.
  - intros faculty. destruct Hcase as [->| ->]; [reflexivity|].
    unfold getStudentsByFaculty. simpl.
    now apply filter_update_first_map.
  - intros faculty. unfold getTopStudentsByFaculty, getStudentsByFaculty.
    rewrite !filter_twice.
    rewrite (filter_ext
               (fun x => Faculty_eqb (Student.faculty x) faculty
                         && number_geb (calculateAverageGrade s' (Student.id x))
                              (gradeValue Excellent - 1))
               (fun x => Faculty_eqb (Student.faculty x) faculty
                         && number_geb (calculateAverageGrade s (Student.id x))
                              (gradeValue Excellent - 1)))
      by (intros x; now rewrite Ha).
    destruct Hcase as [->| ->]; [reflexivity|]. simpl.
    now apply filter_update_first_map.
Qed.

(** ** Further properties: the faculty lists *)

(** X19. The faculty lists split the students: every stored student is in the
    list of exactly one faculty, its own, so the four lists together are
    as long as the student list. *)
Theorem getStudentsByFaculty_partition (s : UMS) :
  (forall x faculty,
      In x (getStudentsByFaculty s faculty)
      <-> In x (students s) /\ Student.faculty x = faculty)
  /\ length (students s)
     = (length (getStudentsByFaculty s Computer_Science)
        + length (getStudentsByFaculty s Economics)
        + length (getStudentsByFaculty s Law)
        + length (getStudentsByFaculty s Engineering))%nat.
Proof.
  unfold getStudentsByFaculty. split.
  - intros x faculty. now rewrite filter_In, Faculty_eqb_eq.
  - induction (students s) as [|a l IH]; [reflexivity|].
    cbn [filter length]. destruct (Student.faculty a); simpl; lia.
Qed.

(** X20. Enrolment and the faculty lists: [enrollStudent] puts the new student
    at the end of the list of its faculty and leaves the lists of the
    other faculties as they were. *)
Theorem enrollStudent_joins_its_faculty
        (s : UMS) (student : StudentWithoutId.t) (faculty : Faculty) :
  let s' := state_after (enrollStudent student) s in
  (StudentWithoutId.faculty student = faculty ->
   getStudentsByFaculty s' faculty
   = getStudentsByFaculty s faculty ++ [withId (nextStudentId s) student])
  /\ (StudentWithoutId.faculty student <> faculty ->
      getStudentsByFaculty s' faculty = getStudentsByFaculty s faculty).
Proof.
  intros s'. unfold s', state_after. rewrite enrollStudent_run.
  unfold getStudentsByFaculty. simpl. rewrite filter_app. simpl.
  split; intros H.
  - apply Faculty_eqb_eq in H. now rewrite H.
  - destruct (Faculty_eqb _ _) eqn:E.
    + apply Faculty_eqb_eq in E. contradiction.
    + apply app_nil_r.
Qed.

Lemma enrollStudent_joins_its_faculty_witness :
  getStudentsByFaculty (state_after (enrollStudent maria) (campus Active []))
                       Economics
  = [withId 2 maria]
  /\ getStudentsByFaculty
       (state_after (enrollStudent maria) (campus Active []))
       Computer_Science
     = [oneStudent Computer_Science Active].
Proof.
  split.
  - apply (proj1 (enrollStudent_joins_its_faculty (campus Active []) maria
                    Economics)).
    reflexivity.
  - apply (proj2 (enrollStudent_joins_its_faculty (campus Active []) maria
                    Computer_Science)).
    discriminate.
Defined.

(** ** Further properties: the store only grows *)

Lemma performAll_preserves (P : UMS -> Prop) :
  (forall c s, P s -> P (state_after (perform c) s)) ->
  forall cs s, P s -> P (performAll cs s).
Proof.
  intros Hstep cs. induction cs as [|c cs IH]; intros s Hs; simpl; auto.
Qed.

Lemma perform_appends (c : Call) (s : UMS) :
  exists newIds newPairs,
    map Student.id (students (state_after (perform c) s))
    = map Student.id (students s) ++ newIds
    /\ map pairOf (grades (state_after (perform c) s))
       = map pairOf (grades s) ++ newPairs.
Proof.
  assert (Hsame : exists newIds newPairs,
             map Student.id (students s) = map Student.id (students s) ++ newIds
             /\ map pairOf (grades s) = map pairOf (grades s) ++ newPairs)
    by (exists [], []; now rewrite !app_nil_r).
  unfold state_after.
  destruct c as [d|sid cid now|sid cid g now|sid v]; cbn [perform].
  - unfold bind. rewrite enrollStudent_run. simpl.
    exists [nextStudentId s], []. now rewrite map_app, app_nil_r.
  - rewrite registerForCourse_cases.
    destruct (findCourse cid s); [|exact Hsame].
    destruct (findStudent sid s); [|exact Hsame].
    destruct (negb _); [exact Hsame|].
    destruct (_ >=? _); [exact Hsame|]. simpl.
    exists [], [(sid, cid)]. now rewrite map_app, app_nil_r.
  - rewrite setGrade_cases.
    destruct (find _ (grades s)); [|exact Hsame]. simpl.
    now rewrite update_first_map by reflexivity.
  - rewrite updateStudentStatus_cases.
    destruct (findStudent sid s); [|exact Hsame].
    destruct (_ && _); [exact Hsame|]. simpl.
    now rewrite update_first_map by reflexivity.
Qed.

(** X21. Nothing is ever removed: after any sequence of method calls the ids
    of the stored students and the id pairs of the grade records begin
    with what they were before, in the same order; calls only append. *)
Theorem records_are_never_removed (cs : list Call) (s : UMS) :
  exists newIds newPairs,
    map Student.id (students (performAll cs s))
    = map Student.id (students s) ++ newIds
    /\ map pairOf (grades (performAll cs s))
       = map pairOf (grades s) ++ newPairs.
Proof.
  revert s. induction cs as [|c cs IH]; intros s; simpl.
  - exists [], []. now rewrite !app_nil_r.
  - destruct (IH (state_after (perform c) s)) as (i2 & p2 & -> & ->).
    destruct (perform_appends c s) as (i1 & p1 & -> & ->).
    exists (i1 ++ i2), (p1 ++ p2). now rewrite !app_assoc.
Qed.

(** ** Further properties: capacity, course by course *)

Lemma findCourse_stored (s : UMS) (courseId : Z) (course : Course.t) :
  findCourse courseId s = Some course ->
  In course (courses s) /\ Course.id course = courseId.
Proof.
  unfold findCourse. intros H. apply find_some in H.
  destruct H as [Hin Hid]. apply Z.eqb_eq in Hid. auto.
Qed.

(** With pairwise distinct ids, a lookup of the id of a stored course
    finds that very course. *)
Lemma findCourse_distinct (s : UMS) (course : Course.t) :
  distinctCourseIds s ->
  In course (courses s) ->
  findCourse (Course.id course) s = Some course.
Proof.
  unfold distinctCourseIds, findCourse.
  induction (courses s) as [|a l IH]; intros Hnd Hin; [destruct Hin|].
  cbn [map] in Hnd. apply NoDup_cons_iff in Hnd. destruct Hnd as [Ha Hl].
  cbn [find]. destruct (Course.id a =? Course.id course) eqn:E.
  - destruct Hin as [->|Hin]; [reflexivity|]. exfalso. apply Ha.
    apply Z.eqb_eq in E. rewrite E. now apply in_map.
  - destruct Hin as [->|Hin]; [now rewrite Z.eqb_refl in E|]. now apply IH.
Qed.

Lemma everyCourseWithinCapacity_lookup (s : UMS) :
  everyCourseWithinCapacity s -> withinCapacity s.
Proof.
  intros H courseId course Hc.
  destruct (findCourse_stored _ _ _ Hc) as [Hin <-]. now apply H.
Qed.

Lemma withinCapacity_every (s : UMS) :
  distinctCourseIds s -> withinCapacity s -> everyCourseWithinCapacity s.
Proof.
  intros Hd H course Hin.
  apply (H (Course.id course) course). now apply findCourse_distinct.
Qed.

Lemma everyCourseWithinCapacity_performAll (cs : list Call) (s : UMS) :
  distinctCourseIds s ->
  everyCourseWithinCapacity s ->
  everyCourseWithinCapacity (performAll cs s).
Proof.
  intros Hd H. apply withinCapacity_every.
  - unfold distinctCourseIds.
    now rewrite (proj1 (performAll_courses cs s)).
  - apply (performAll_preserves withinCapacity withinCapacity_perform).
    now apply everyCourseWithinCapacity_lookup.
Qed.

(** X4. The capacity bound is an invariant of the class when the course
    ids are pairwise distinct: if no stored course holds more grade records
    than its [maxStudents], this is still so after any sequence of method
    calls, whether they return or throw. *)
Theorem capacity_never_exceeded (cs : list Call) (s : UMS) :
  distinctCourseIds s ->
  everyCourseWithinCapacity s ->
  everyCourseWithinCapacity (performAll cs s).
Proof.
  intros Hd H course.
  exact (everyCourseWithinCapacity_performAll cs s Hd H course).
Qed.

Lemma distinctCourseIds_campus : distinctCourseIds (campus Active []).
Proof.
  unfold distinctCourseIds. simpl.
  constructor; [intros [H|[]]; discriminate|].
  constructor; [intros []|constructor].
Defined.

Lemma everyCourseWithinCapacity_campus :
  everyCourseWithinCapacity (campus Active []).
Proof.
  intros course [<-|[<-|[]]]; unfold registrations; simpl; lia.
Defined.

(** Three attempts on [course1], which has two places. *)
Lemma capacity_never_exceeded_witness :
  everyCourseWithinCapacity
    (performAll [RegisterForCourse 1 1 10; RegisterForCourse 1 1 20;
                 RegisterForCourse 1 1 30; SetGrade 1 1 Good 40]
       (campus Active [])).
Proof.
  apply (capacity_never_exceeded _ (campus Active [])
           distinctCourseIds_campus everyCourseWithinCapacity_campus).
Defined.

(** The distinct ids are needed.  With two stored courses of id 1, the
    test of [registerForCourse] reads the capacity of the first one only:
    two registrations pass, and the second course, which has one place,
    then counts two records of its id. *)
Example capacity_exceeded_behind_a_duplicate_id :
  let s := mkUMS [oneStudent Computer_Science Active] [course1; course1bis]
                 [] 2 1 in
  let s' := performAll [RegisterForCourse 1 1 10; RegisterForCourse 1 1 20] s in
  everyCourseWithinCapacity s
  /\ withinCapacity s'
  /\ registrations (Course.id course1bis) s' = 2
  /\ Course.maxStudents course1bis = 1
  /\ ~ everyCourseWithinCapacity s'.
Proof.
  intros s s'. split; [|split; [|split; [|split]]].
  - intros course [<-|[<-|[]]]; unfold registrations; simpl; lia.
  - apply (performAll_preserves withinCapacity withinCapacity_perform).
    apply everyCourseWithinCapacity_lookup.
    intros course [<-|[<-|[]]]; unfold registrations; simpl; lia.
  - reflexivity.
  - reflexivity.
  - intros H. specialize (H course1bis (or_intror (or_introl eq_refl))).
    revert H. vm_compute. intros H. now apply H.
Qed.

Lemma seeded_within_capacity (catalog : list Course.t) :
  Forall (fun c => 0 <= Course.maxStudents c) catalog ->
  everyCourseWithinCapacity (state_after (pushCourses catalog) init).
Proof.
  intros Hcap course Hin. simpl in Hin.
  rewrite Forall_forall in Hcap. exact (Hcap course Hin).
Qed.

(** X22. A seeded instance is consistent for good: on a fresh instance whose
    course array was filled, as the script does, with courses of pairwise
    distinct ids and non-negative capacities, every sequence of method
    calls leads to a state in which no stored course holds more grade
    records than its [maxStudents], the student ids are unique, and every
    grade record refers to a stored student and a stored course of one
    faculty. *)
Theorem seeded_instance_stays_consistent
        (catalog : list Course.t) (cs : list Call) :
  Forall (fun c => 0 <= Course.maxStudents c) catalog ->
  NoDup (map Course.id catalog) ->
  let s := performAll cs (state_after (pushCourses catalog) init) in
  everyCourseWithinCapacity s /\ wellNumbered s /\ wellReferenced s.
Proof.
  intros Hcap Hnd s. unfold s. split; [|split].
  - apply everyCourseWithinCapacity_performAll.
    + exact Hnd.
    + now apply seeded_within_capacity.
  - apply (performAll_preserves wellNumbered wellNumbered_perform).
    split; constructor.
  - apply (performAll_preserves wellReferenced wellReferenced_perform).
    constructor.
Qed.

(** The calls of the script on the two courses of the script. *)
Lemma seeded_instance_stays_consistent_witness :
  let s := performAll
             [EnrollStudent ivan; EnrollStudent maria;
              RegisterForCourse 1 1 10; RegisterForCourse 2 2 20;
              SetGrade 1 1 Excellent 30; SetGrade 2 2 Good 40;
              UpdateStudentStatus 1 Graduated]
             (state_after (pushCourses [course1; course2]) init) in
  everyCourseWithinCapacity s /\ wellNumbered s /\ wellReferenced s.
Proof.
  apply (seeded_instance_stays_consistent [course1; course2]).
  - constructor; [simpl; lia|]. constructor; [simpl; lia|constructor].
  - simpl. constructor; [intros [H|[]]; discriminate|].
    constructor; [intros []|constructor].
Defined.

(** ** The average as the method returns it *)












Example average_no_grades_double :
  Double.calculateAverageGrade (gradedState [None; None]) 1 = S754_zero false.
Proof. reflexivity. Qed.
